(** * Custody state machine of the supply-chain backend

    A shallow embedding of [backend/routes/product_routes.py]: the status
    tables, [status_index], and the three views that write to the store
    ([create_product], [explicit_custody_transfer], [delete_product]),
    followed by the properties of the transition pipeline. *)

From Stdlib Require Import Ascii.
From stdpp Require Import gmap strings list fin_maps.

Open Scope string_scope.

(** ** Status and role tables (module level constants) *)

Definition STATUS_ORDER : list string :=
  ["Created"; "ReadyForShipping"; "Shipped"; "InTransit";
   "DeliveredToRetailer"; "AvailableForSale"; "Sold"; "Recalled"].

Definition ROLE_ALLOWED : gmap string (list string) :=
  <["manufacturer" := ["Created"; "ReadyForShipping"]]>
  (<["distributor" := ["Shipped"; "InTransit"; "DeliveredToRetailer"]]>
  (<["retailer" := ["AvailableForSale"; "Sold"]]> ∅)).

Definition NEXT_ROLE_MAP : gmap string string :=
  <["ReadyForShipping" := "distributor"]>
  (<["DeliveredToRetailer" := "retailer"]> ∅).

Definition DISTRIBUTOR_SEQUENCE_MAP : gmap string string :=
  <["InTransit" := "Shipped"]>
  (<["DeliveredToRetailer" := "InTransit"]> ∅).

(** [list.index(s)]: position of the first occurrence, [None] where Python
    raises [ValueError]. *)
Fixpoint list_index (s : string) (l : list string) : option nat :=
  match l with
  | [] => None
  | x :: l' => if bool_decide (x = s) then Some 0 else S <$> list_index s l'
  end.

(** [status_index]: the [ValueError] of [list.index] is turned into [None]. *)
Definition status_index (s : string) : option nat := list_index s STATUS_ORDER.

(** [a <= b] on the results of [status_index].  Python 3 has no order between
    an [int] and [None]: the comparison raises [TypeError], rendered here as
    [None]. *)
Definition py_le (a b : option nat) : option bool :=
  match a, b with
  | Some x, Some y => Some (x <=? y)%nat
  | _, _ => None
  end.

(** Truth value of an optional JSON string: [None] and the empty string are
    falsy. *)
Definition truthy (o : option string) : bool :=
  match o with
  | Some s => negb (bool_decide (s = ""))
  | None => false
  end.

(** ** Rows of the store ([models.Product], [models.User], [models.History]) *)

Record Product := mkProduct {
  product_id : string;
  name : string;
  owner : string;
  custodian : string;
  description : string;
  current_status : string
}.

Record User := mkUser {
  username : string;
  user_role : string
}.

(** Outcome of [Blockchain.add_block]: the block it returns, or the exception
    it raises; either way with the ledger as the call left it. *)
Inductive AddResult (Blockchain Block : Type) :=
| Appended (bc' : Blockchain) (block : Block)
| Raised (bc' : Blockchain) (exn : string).
Arguments Appended {Blockchain Block} bc' block.
Arguments Raised {Blockchain Block} bc' exn.

Definition ledger_after {Blockchain Block} (r : AddResult Blockchain Block) : Blockchain :=
  match r with Appended bc' _ => bc' | Raised bc' _ => bc' end.

Definition block_info {Blockchain Block} (r : AddResult Blockchain Block) : option Block :=
  match r with Appended _ b => Some b | Raised _ _ => None end.

Section Routes.

(** Coordinates are JSON values that the views only store, test against
    [None] and format into an f-string: [py_str] is that formatting. *)
Context {Coord : Type} (py_str : Coord → string).

(** Values of [now_ts()]. *)
Context {Timestamp : Type}.

(** The ledger object kept in [current_app.config], its blocks and its
    [add_block] method ([blockchain.py]); the payload is the dict literal
    the view passes. *)
Context {Blockchain Block : Type}.
Context (add_block : Blockchain → gmap string string → AddResult Blockchain Block).

Record History := mkHistory {
  h_product_id : string;
  h_status : string;
  h_by_who : string;
  h_timestamp : option Timestamp;
  h_latitude : option Coord;
  h_longitude : option Coord
}.

Record Db := mkDb {
  products : list Product;
  users : list User;
  history : list History
}.

(** JSON body of [POST /api/products/update], by the names of the locals
    that receive its fields. *)
Record UpdateData := mkUpdateData {
  pid : option string;
  new_status : option string;
  transfer_to : option string;
  lat : option Coord;
  lon : option Coord
}.

(** JSON body of [POST /api/products/]. *)
Record CreateData := mkCreateData {
  c_name : option string;
  c_description : option string;
  c_latitude : option Coord;
  c_longitude : option Coord
}.

(** What a view hands back: a JSON body with its HTTP code, or an exception
    that leaves the view. *)
Inductive Body :=
| ErrorBody (msg : string)
| UpdateBody (p : Product) (block : option Block)
| CreateBody (p : Product) (block : Block)
| DeleteBody (id : string) (block : option Block).

Inductive Response :=
| Json (body : Body) (code : nat)
| Unhandled (exn : string).

Definition error (msg : string) (code : nat) : Response := Json (ErrorBody msg) code.

(** [Product.query.filter_by(product_id=id).first()] *)
Definition find_product (id : string) (db : Db) : option Product :=
  find (λ p, bool_decide (product_id p = id)) (products db).

(** [User.query.filter_by(username=u).first()] *)
Definition find_user (u : string) (db : Db) : option User :=
  find (λ r, bool_decide (username r = u)) (users db).

(** Writing back the row loaded by [find_product]: the first row with that
    [product_id] is replaced. *)
Fixpoint write_product (id : string) (p' : Product) (l : list Product) : list Product :=
  match l with
  | [] => []
  | p :: l' => if bool_decide (product_id p = id) then p' :: l'
               else p :: write_product id p' l'
  end.

(** [db.session.delete(product)] for the row loaded by [find_product]. *)
Fixpoint delete_row (id : string) (l : list Product) : list Product :=
  match l with
  | [] => []
  | p :: l' => if bool_decide (product_id p = id) then l'
               else p :: delete_row id l'
  end.

(** The f-string [f"{lat},{lon}" if lat is not None else "N/A"]. *)
Definition location (lat lon : option Coord) : string :=
  match lat with
  | Some a => py_str a +:+ "," +:+ match lon with Some b => py_str b | None => "None" end
  | None => "N/A"
  end.

(** *** The error responses of [explicit_custody_transfer] *)

Definition MissingField : Response :=
  error "product_id and status are required" 400.
Definition ProductNotFound : Response :=
  error "Product not found" 404.
Definition WrongCustodian (p : Product) : Response :=
  error ("Action failed: You are not the current custodian ('" +:+ custodian p +:+ "')") 403.
Definition RoleNotPermitted (role new_status : string) : Response :=
  error ("Your role '" +:+ role +:+ "' cannot set status '" +:+ new_status +:+ "'") 403.
Definition InvalidTransition (p : Product) (new_status : string) : Response :=
  error ("Invalid transition from '" +:+ current_status p +:+ "' to '" +:+ new_status +:+ "'") 403.
Definition InvalidSequence (new_status required_previous_status : string) : Response :=
  error ("Invalid sequence: To set status to '" +:+ new_status +:+
         "', product must first be in '" +:+ required_previous_status +:+ "' status.") 403.
Definition MissingTransferTarget (new_status : string) : Response :=
  error ("'transfer_to_username' is required for status '" +:+ new_status +:+ "'") 400.
Definition RecipientNotFound (transfer_to : string) : Response :=
  error ("Recipient '" +:+ transfer_to +:+ "' not found") 404.
Definition RoleMismatch (expected_role : string) (recipient : User) : Response :=
  error ("Can only transfer to '" +:+ expected_role +:+ "', but '" +:+ username recipient +:+
         "' is a '" +:+ user_role recipient +:+ "'") 400.

(** *** [explicit_custody_transfer], up to the first write

    The guards of the view in their order; [inr] carries what the rest of
    the view uses: the product id, the requested status, the loaded row and
    [new_custodian]. *)
Definition transfer_checks (actor role : string) (data : UpdateData) (db : Db)
  : Response + (string * string * Product * string) :=
  match pid data, new_status data with
  | Some pid, Some new_status =>
    if negb (truthy (Some pid)) || negb (truthy (Some new_status)) then inl MissingField else
    match find_product pid db with
    | None => inl ProductNotFound
    | Some p =>
      if bool_decide (custodian p ≠ actor) && bool_decide (role ≠ "super_admin")
      then inl (WrongCustodian p) else
      if negb (bool_decide (new_status ∈ default [] (ROLE_ALLOWED !! role)))
      then inl (RoleNotPermitted role new_status) else
      match py_le (status_index new_status) (status_index (current_status p)) with
      | None => inl (Unhandled "TypeError")
      | Some true => inl (InvalidTransition p new_status)
      | Some false =>
        let sequence_error :=
          if bool_decide (role = "distributor") then
            match DISTRIBUTOR_SEQUENCE_MAP !! new_status with
            | Some required_previous_status =>
              if bool_decide (current_status p ≠ required_previous_status)
              then Some (InvalidSequence new_status required_previous_status)
              else None
            | None => None
            end
          else None in
        match sequence_error with
        | Some r => inl r
        | None =>
          match NEXT_ROLE_MAP !! new_status with
          | None => inr (pid, new_status, p, actor)
          | Some expected_role =>
            if negb (truthy (transfer_to data)) then inl (MissingTransferTarget new_status) else
            let transfer_to := default "" (transfer_to data) in
            match find_user transfer_to db with
            | None => inl (RecipientNotFound transfer_to)
            | Some recipient =>
              if bool_decide (user_role recipient ≠ expected_role)
              then inl (RoleMismatch expected_role recipient)
              else inr (pid, new_status, p, username recipient)
            end
          end
        end
      end
    end
  | _, _ => inl MissingField
  end.

(** The payload of the block appended for a transition. *)
Definition transfer_event (pid new_status actor new_custodian : string)
    (lat lon : option Coord) : gmap string string :=
  <["type" := if bool_decide (is_Some (NEXT_ROLE_MAP !! new_status))
              then "custody_transfer" else "status_update"]>
  (<["product_id" := pid]>
  (<["status" := new_status]>
  (<["actor" := actor]>
  (<["new_custodian" := new_custodian]>
  (<["location" := location lat lon]> ∅))))).

(** The row after [p.custodian = new_custodian; p.current_status = new_status]. *)
Definition moved (p : Product) (new_custodian new_status : string) : Product :=
  mkProduct (product_id p) (name p) (owner p) new_custodian (description p) new_status.

(** The store after the commit of a transition: the row written back and one
    [History] row added (its timestamp left to the column default). *)
Definition commit_transfer (pid new_status actor new_custodian : string) (p : Product)
    (lat lon : option Coord) (db : Db) : Db :=
  mkDb (write_product pid (moved p new_custodian new_status) (products db))
       (users db)
       (history db ++ [mkHistory pid new_status actor None lat lon]).

(** *** [explicit_custody_transfer]

    [actor] and [role] are the [username] and [role] claims of the token.
    The decorators of the view ([jwt_required], [role_required]) run before
    its body; the body is given here for every pair of claims, whichever of
    them the decorators let through. *)
Definition explicit_custody_transfer (actor role : string) (data : UpdateData)
    (db : Db) (bc : Blockchain) : Response * Db * Blockchain :=
  match transfer_checks actor role data db with
  | inl rejection => (rejection, db, bc)
  | inr (pid, new_status, p, new_custodian) =>
    let db' := commit_transfer pid new_status actor new_custodian p (lat data) (lon data) db in
    let r := add_block bc (transfer_event pid new_status actor new_custodian (lat data) (lon data)) in
    (Json (UpdateBody (moved p new_custodian new_status) (block_info r)) 200,
     db', ledger_after r)
  end.

(** *** [create_product]

    [id] and [ts] are the values [gen_product_id()] and [now_ts()] return
    during the call. *)
Definition create_event (pid actor : string) (lat lon : option Coord) : gmap string string :=
  <["type" := "create_product"]>
  (<["product_id" := pid]>
  (<["action" := "Product Created"]>
  (<["owner" := actor]>
  (<["initial_custodian" := actor]>
  (<["location" := location lat lon]> ∅))))).

(** Modelled from the spec: the default of the [current_status] column of
    [models.Product], which is not among the sources; a new product starts
    in [Created]. *)
Definition default_status : string := "Created".

Definition create_product (actor : string) (data : CreateData) (id : string) (ts : Timestamp)
    (db : Db) (bc : Blockchain) : Response * Db * Blockchain :=
  if negb (truthy (c_name data)) then (error "Product name is required" 400, db, bc) else
  let product := mkProduct id (default "" (c_name data)) actor actor
                           (default "" (c_description data)) default_status in
  let hist := mkHistory id "Created" actor (Some ts) (c_latitude data) (c_longitude data) in
  let db' := mkDb (products db ++ [product]) (users db) (history db ++ [hist]) in
  match add_block bc (create_event id actor (c_latitude data) (c_longitude data)) with
  | Appended bc' block => (Json (CreateBody product block) 201, db', bc')
  | Raised bc' exn => (Unhandled exn, db', bc')
  end.

(** *** [delete_product] *)
Definition delete_event (product_id actor : string) : gmap string string :=
  <["type" := "delete_product"]>
  (<["product_id" := product_id]>
  (<["deleted_by" := actor]> ∅)).

Definition delete_product (actor : string) (id : string)
    (db : Db) (bc : Blockchain) : Response * Db * Blockchain :=
  match find_product id db with
  | None => (error "product not found" 404, db, bc)
  | Some _ =>
    let db' := mkDb (delete_row id (products db)) (users db)
                    (filter (λ h, h_product_id h ≠ id) (history db)) in
    match add_block bc (delete_event id actor) with
    | Appended bc' block => (Json (DeleteBody id (Some block)) 200, db', bc')
    | Raised bc' exn => (Unhandled exn, db', bc')
    end
  end.

(** ** Calls to the store-writing views

    A request that reaches one of the three views, with the token claims the
    decorators let through and the values the helpers return during it. *)
Inductive Call :=
| CreateProduct (actor : string) (data : CreateData) (id : string) (ts : Timestamp)
| ExplicitCustodyTransfer (actor role : string) (data : UpdateData)
| DeleteProduct (actor : string) (id : string).

Definition handle (c : Call) (db : Db) (bc : Blockchain) : Response * Db * Blockchain :=
  match c with
  | CreateProduct actor data id ts => create_product actor data id ts db bc
  | ExplicitCustodyTransfer actor role data => explicit_custody_transfer actor role data db bc
  | DeleteProduct actor id => delete_product actor id db bc
  end.

(** The store and the ledger after a sequence of calls, served one at a time. *)
Fixpoint run (cs : list Call) (db : Db) (bc : Blockchain) : Db * Blockchain :=
  match cs with
  | [] => (db, bc)
  | c :: cs' => let '(_, db', bc') := handle c db bc in run cs' db' bc'
  end.

(** A call that removes the product [id]. *)
Definition deletes (id : string) (c : Call) : Prop :=
  match c with DeleteProduct _ id' => id' = id | _ => False end.

(** ** Vocabulary of the properties *)

(** The view answered 200 with the updated product. *)
Definition accepted (r : Response) : Prop :=
  ∃ p block, r = Json (UpdateBody p block) 200.

(** The view answered with an [{"error": ...}] body. *)
Definition rejected (r : Response) : Prop :=
  ∃ msg code, r = error msg code.

(** The request carries a non-empty [product_id] under which [p] is stored. *)
Definition names_product (data : UpdateData) (db : Db) (p : Product) : Prop :=
  ∃ i, pid data = Some i ∧ i ≠ "" ∧ find_product i db = Some p.

(** The request carries the non-empty status [s]. *)
Definition requests_status (data : UpdateData) (s : string) : Prop :=
  new_status data = Some s ∧ s ≠ "".

(** The two statuses that hand the product over, with the role that must
    receive it (the entries of [NEXT_ROLE_MAP]). *)
Definition handoff (s expected_role : string) : Prop :=
  s = "ReadyForShipping" ∧ expected_role = "distributor" ∨
  s = "DeliveredToRetailer" ∧ expected_role = "retailer".

(** The status is one of the two. *)
Definition handoff_status (s : string) : Prop :=
  s = "ReadyForShipping" ∨ s = "DeliveredToRetailer".

(** The two statuses a distributor may only set from one given status (the
    entries of [DISTRIBUTOR_SEQUENCE_MAP]). *)
Definition required_predecessor (s required : string) : Prop :=
  s = "InTransit" ∧ required = "Shipped" ∨
  s = "DeliveredToRetailer" ∧ required = "InTransit".

(** The request names a recipient who is stored with the role [expected_role]. *)
Definition valid_target (data : UpdateData) (db : Db) (expected_role : string) : Prop :=
  ∃ t u, transfer_to data = Some t ∧ t ≠ "" ∧ find_user t db = Some u ∧
         user_role u = expected_role.

(** The answers of the validation and authorization rules, one per rule. *)
Inductive rule_rejection : Response → Prop :=
| rej_missing_field : rule_rejection MissingField
| rej_product_not_found : rule_rejection ProductNotFound
| rej_wrong_custodian p : rule_rejection (WrongCustodian p)
| rej_role_not_permitted role s : rule_rejection (RoleNotPermitted role s)
| rej_invalid_transition p s : rule_rejection (InvalidTransition p s)
| rej_invalid_sequence s r : rule_rejection (InvalidSequence s r)
| rej_missing_target s : rule_rejection (MissingTransferTarget s)
| rej_recipient_not_found t : rule_rejection (RecipientNotFound t)
| rej_role_mismatch r u : rule_rejection (RoleMismatch r u).

(** Order of two statuses along [STATUS_ORDER]. *)
Definition status_lt (s s' : string) : Prop :=
  ∃ a b, status_index s = Some a ∧ status_index s' = Some b ∧ a < b.

(** The request for [s] on [p] gets through the custodian, role, order and
    sequence guards, in the terms of the tables. *)
Definition passes_guards (actor role : string) (p : Product) (s : string) : Prop :=
  (custodian p = actor ∨ role = "super_admin") ∧
  s ∈ default [] (ROLE_ALLOWED !! role) ∧
  status_lt (current_status p) s ∧
  (role = "distributor" → ∀ r, required_predecessor s r → current_status p = r).

(** The request satisfies every rule of the view, for the product [p] and the
    status [s], and [nc] is the custodian the view then assigns: the actor,
    or for a handoff the named recipient, who must be stored with the
    expected role. *)
Definition passes_validation (actor role : string) (data : UpdateData) (db : Db)
    (p : Product) (s nc : string) : Prop :=
  names_product data db p ∧ requests_status data s ∧ passes_guards actor role p s ∧
  (¬ handoff_status s ∧ nc = actor ∨
   ∃ e t u, handoff s e ∧ transfer_to data = Some t ∧ t ≠ "" ∧
            find_user t db = Some u ∧ user_role u = e ∧ nc = username u).

End Routes.

(** ** A small world to run the views in

    A ledger known by the length of its chain, whose blocks are known by
    their index, a ledger that is down, four users and one product;
    coordinates are given as text and time as a number. *)

Definition counting_add (bc : nat) (data : gmap string string) : AddResult nat nat :=
  Appended (S bc) bc.

Definition ledger_down (bc : nat) (data : gmap string string) : AddResult nat nat :=
  Raised bc "ledger unavailable".

(** A ledger that keeps the payloads it is given, in order. *)
Definition recording_add (bc : list (gmap string string)) (data : gmap string string)
  : AddResult (list (gmap string string)) nat :=
  Appended (bc ++ [data])%list (List.length bc).

Definition demo_users : list User :=
  [mkUser "alice" "manufacturer"; mkUser "bob" "distributor";
   mkUser "carol" "distributor"; mkUser "dan" "retailer"].

Definition widget (custodian status : string) : Product :=
  mkProduct "P1" "Widget" "alice" custodian "a widget" status.

Definition demo_db (custodian status : string) : @Db string nat :=
  mkDb [widget custodian status] demo_users [].

Definition ask (status : string) (transfer_to : option string) : @UpdateData string :=
  mkUpdateData (Some "P1") (Some status) transfer_to None None.

Definition ask_at (status : string) (transfer_to : option string) (lat lon : string)
  : @UpdateData string :=
  mkUpdateData (Some "P1") (Some status) transfer_to (Some lat) (Some lon).

(** The transition view over the counting ledger. *)
Definition demo_transfer := @explicit_custody_transfer string id nat nat nat counting_add.

(** Closing the side conditions of the properties on the small world: the
    request names the widget, asks for a status, the role may set it. *)
Ltac names_widget :=
  exists "P1"; split; [reflexivity|split; [discriminate|vm_compute; reflexivity]].

Ltac asks := split; [reflexivity|discriminate].

Ltac is_allowed := apply (bool_decide_unpack _); vm_compute; exact I.

(** Takes a request with a product id, a status and a stored product through
    the first two guards of [transfer_checks]. *)
Ltac enter_checks Hi Hi0 Hs Hs0 Hf :=
  unfold transfer_checks, truthy; rewrite Hi, Hs; simpl;
  rewrite ?(bool_decide_eq_false_2 _ Hi0), ?(bool_decide_eq_false_2 _ Hs0); simpl;
  rewrite Hf.

(** * The other views of [product_routes.py] and the configuration of [app.py] *)

(** What a block carries in [b.data]: the dict a view handed to [add_block],
    or something that is no dict and has no [get]. *)
Inductive BlockData :=
| DictData (d : gmap string string)
| OtherData.

(** [s.rstrip(c)] for a single character [c]. *)
Fixpoint rstrip (c : ascii) (s : string) : string :=
  match s with
  | EmptyString => EmptyString
  | String a s' =>
    match rstrip c s' with
    | EmptyString => if bool_decide (a = c) then EmptyString else String a EmptyString
    | r => String a r
    end
  end.

(** [c in s] *)
Fixpoint contains (c : ascii) (s : string) : bool :=
  match s with
  | EmptyString => false
  | String a s' => bool_decide (a = c) || contains c s'
  end.

(** [s.split(c)]: the pieces between the occurrences of [c], empty ones
    included. *)
Fixpoint str_split (c : ascii) (s : string) : list string :=
  match s with
  | EmptyString => [EmptyString]
  | String a s' =>
    if bool_decide (a = c) then EmptyString :: str_split c s'
    else match str_split c s' with
         | x :: r => String a x :: r
         | [] => [String a EmptyString]
         end
  end.

(** The two entries of [app.config] the views read; [None] is a key that was
    not set. *)
Record AppConfig := mkAppConfig {
  FRONTEND_PUBLIC_BASE_URL : option string;
  BACKEND_PUBLIC_BASE_URL : option string
}.

(** [create_app], the two public base URLs: a truthy value of [config.py] is
    stored without its trailing slashes, a falsy one is not stored. *)
Definition create_app (frontend backend : option string) : AppConfig :=
  mkAppConfig
    (if truthy frontend then Some (rstrip "/"%char (default "" frontend)) else None)
    (if truthy backend then Some (rstrip "/"%char (default "" backend)) else None).

(** What the views read of the HTTP request to build URLs. *)
Record HttpRequest := mkHttpRequest {
  X_Forwarded_Proto : option string;
  scheme : string;
  X_Forwarded_Host : option string;
  host : string
}.

(** The URLs in the answer of [create_product]; [qr_data] is the text of the
    QR code. *)
Record ProductUrls := mkProductUrls {
  qr_data : string;
  qr_url : string;
  history_url : string;
  public_verify_url : string
}.

(** [create_product], from the QR target on: the URLs of the new product
    [pid]. *)
Definition create_product_urls (config : AppConfig) (request : HttpRequest) (pid : string)
  : ProductUrls :=
  let base_url :=
    if negb (truthy (FRONTEND_PUBLIC_BASE_URL config))
    then default (scheme request) (X_Forwarded_Proto request) +:+ "://" +:+
         default (host request) (X_Forwarded_Host request)
    else default "" (FRONTEND_PUBLIC_BASE_URL config) in
  let backend_base :=
    if truthy (BACKEND_PUBLIC_BASE_URL config)
    then default "" (BACKEND_PUBLIC_BASE_URL config) else base_url in
  mkProductUrls
    (base_url +:+ "/verify/" +:+ pid +:+ "?api_base_url=" +:+ backend_base)
    (backend_base +:+ "/api/products/" +:+ pid +:+ "/qrcode")
    (backend_base +:+ "/api/products/" +:+ pid +:+ "/history")
    (base_url +:+ "/verify/" +:+ pid +:+ "?api_base_url=" +:+ backend_base).

(** Query string of [GET /api/products/]; [None] is a parameter that was not
    given. *)
Record ListArgs := mkListArgs {
  arg_page : option string;
  arg_per_page : option string;
  arg_status : option string;
  arg_owner : option string;
  arg_from : option string;
  arg_to : option string;
  arg_sort : option string
}.

(** Query string of [GET /api/products/search]. *)
Record SearchArgs := mkSearchArgs {
  arg_query : option string;
  search_status : option string;
  search_owner : option string
}.

Section Views.

Context {Coord Timestamp Blockchain Block BlockDict : Type}.

(** Of the ledger object and its blocks ([blockchain.py]): the list
    [bc.chain], [b.data], [b.to_dict()] with its ['data'] entry, and
    [bc.is_valid_chain] when the object has that method. *)
Context (chain : Blockchain → list Block).
Context (data : Block → BlockData).
Context (to_dict : Block → BlockDict).
Context (dict_data : BlockDict → BlockData).
Context (is_valid_chain : option (Blockchain → bool * string)).

(** Of Python and the database: [int()] of a query parameter ([None] where
    it raises [ValueError]), the test on [created_at] between two dates,
    [hasattr(Product, field)], [ORDER BY] on a column, the rows of a page, and
    [ILIKE] of a column value against a pattern. *)
Context (py_int : string → option Z).
Context (created_between : string → string → Product → bool).
Context (has_attribute : string → bool).
Context (order_by : string → bool → list Product → list Product).
Context (paginate : Z → Z → list Product → list Product).
Context (ilike : string → string → bool).

(** What a reading view hands back. *)
Inductive ViewBody :=
| ErrorView (msg : string)
| ProductView (p : Product)
| ListView (page per_page : Z) (total : nat) (products : list Product)
| SearchView (products : list Product)
| ChainView (blocks : list BlockDict)
| VerifyView (valid : bool) (message : string)
| HistoryView (product_details : Product) (verified_history_timeline : list BlockData)
              (blockchain_verified : bool) (verification_message : string)
| QrCodeView (text : string).

Inductive ViewResponse :=
| ViewJson (body : ViewBody) (code : nat)
| ViewRaises (exn : string).

(** *** [get_product] *)
Definition get_product (product_id : string) (db : @Db Coord Timestamp) : ViewResponse :=
  match find_product product_id db with
  | None => ViewJson (ErrorView "not found") 404
  | Some p => ViewJson (ProductView p) 200
  end.

(** *** [list_products]

    The query of the view before it is ordered and cut into pages: the rows
    the caller may see, narrowed by the filters that were given. *)
Definition list_query (username role : string) (args : ListArgs) (db : @Db Coord Timestamp)
  : list Product :=
  let query := products db in
  let query :=
    if bool_decide (role ≠ "super_admin")
    then filter (λ p, custodian p = username ∨ owner p = username) query
    else query in
  let query :=
    if truthy (arg_status args)
    then filter (λ p, current_status p = default "" (arg_status args)) query else query in
  let query :=
    if truthy (arg_owner args)
    then filter (λ p, owner p = default "" (arg_owner args)) query else query in
  if truthy (arg_from args) && truthy (arg_to args)
  then List.filter (created_between (default "" (arg_from args)) (default "" (arg_to args))) query
  else query.

Definition list_products (username role : string) (args : ListArgs) (db : @Db Coord Timestamp)
  : ViewResponse :=
  match match arg_page args with Some s => py_int s | None => Some 1%Z end,
        match arg_per_page args with Some s => py_int s | None => Some 10%Z end with
  | Some page, Some per_page =>
    let query := list_query username role args db in
    let sort := default "created_at:desc" (arg_sort args) in
    match (if contains ":"%char sort then
             match str_split ":"%char sort with
             | [field; direction] => Some (field, direction)
             | _ => None
             end
           else Some (sort, "asc")) with
    | None => ViewRaises "ValueError"
    | Some (field, direction) =>
      let ordered :=
        if has_attribute field
        then order_by field (bool_decide (direction = "desc")) query else query in
      ViewJson (ListView page per_page (length query) (paginate page per_page ordered)) 200
    end
  | _, _ => ViewRaises "ValueError"
  end.

(** *** [search_products] *)
Definition search_products (args : SearchArgs) (db : @Db Coord Timestamp) : ViewResponse :=
  let q := default "" (arg_query args) in
  let query :=
    List.filter (λ p, ilike (name p) ("%" +:+ q +:+ "%") || ilike (description p) ("%" +:+ q +:+ "%"))
                (products db) in
  let query :=
    if truthy (search_status args)
    then filter (λ p, current_status p = default "" (search_status args)) query else query in
  let query :=
    if truthy (search_owner args)
    then filter (λ p, owner p = default "" (search_owner args)) query else query in
  ViewJson (SearchView query) 200.

(** *** [get_blockchain] *)
Definition get_blockchain (bc : Blockchain) : ViewResponse :=
  ViewJson (ChainView (to_dict <$> chain bc)) 200.

(** *** [get_product_blockchain]

    The comprehension calls [b.data.get] on every block: [None] where a block
    whose data is no dict makes it raise. *)
Fixpoint product_blocks (product_id : string) (l : list Block) : option (list BlockDict) :=
  match l with
  | [] => Some []
  | b :: l' =>
    match data b with
    | OtherData => None
    | DictData d =>
      match product_blocks product_id l' with
      | None => None
      | Some rest =>
        Some (if bool_decide (d !! "product_id" = Some product_id)
              then to_dict b :: rest else rest)
      end
    end
  end.

Definition get_product_blockchain (product_id : string) (bc : Blockchain) : ViewResponse :=
  match product_blocks product_id (chain bc) with
  | None => ViewRaises "AttributeError"
  | Some product_blocks => ViewJson (ChainView product_blocks) 200
  end.

(** *** [verify_blockchain] *)
Definition verify_blockchain (bc : Blockchain) : ViewResponse :=
  let '(valid, msg) :=
    match is_valid_chain with
    | Some is_valid_chain => is_valid_chain bc
    | None => (false, "Validation method not found")
    end in
  ViewJson (VerifyView valid msg) 200.

(** *** [get_product_qrcode] *)
Definition get_product_qrcode (config : AppConfig) (request : HttpRequest)
    (product_id : string) (db : @Db Coord Timestamp) : ViewResponse :=
  match find_product product_id db with
  | None => ViewJson (ErrorView "product not found") 404
  | Some _ =>
    let base_url :=
      if negb (truthy (FRONTEND_PUBLIC_BASE_URL config))
      then default (scheme request) (X_Forwarded_Proto request) +:+ "://" +:+
           default (host request) (X_Forwarded_Host request)
      else default "" (FRONTEND_PUBLIC_BASE_URL config) in
    let backend_base :=
      if truthy (BACKEND_PUBLIC_BASE_URL config)
      then default "" (BACKEND_PUBLIC_BASE_URL config) else base_url in
    ViewJson (QrCodeView (base_url +:+ "/verify/" +:+ product_id +:+ "?api_base_url=" +:+ backend_base)) 200
  end.

(** *** [get_product_history_from_blockchain]

    The blocks of the product, here with the test that the data is a dict. *)
Definition product_history_blocks (product_id : string) (l : list Block) : list BlockDict :=
  to_dict <$>
    List.filter (λ b, match data b with
                      | DictData d => bool_decide (d !! "product_id" = Some product_id)
                      | OtherData => false
                      end) l.

Definition get_product_history_from_blockchain (product_id : string)
    (db : @Db Coord Timestamp) (bc : Blockchain) : ViewResponse :=
  match find_product product_id db with
  | None => ViewJson (ErrorView "Product not found") 404
  | Some product =>
    let timeline := dict_data <$> product_history_blocks product_id (chain bc) in
    let '(valid, msg) :=
      match is_valid_chain with
      | Some is_valid_chain => is_valid_chain bc
      | None => (false, "Validation method not found")
      end in
    ViewJson (HistoryView product timeline valid msg) 200
  end.

End Views.

(** ** Vocabulary of the further properties *)


(** The moves of the state machine, by role: from which status to which. *)
Definition allowed_move (role cur new : string) : Prop :=
  role = "manufacturer" ∧ cur = "Created" ∧ new = "ReadyForShipping" ∨
  role = "distributor" ∧ (cur = "Created" ∨ cur = "ReadyForShipping") ∧ new = "Shipped" ∨
  role = "distributor" ∧ cur = "Shipped" ∧ new = "InTransit" ∨
  role = "distributor" ∧ cur = "InTransit" ∧ new = "DeliveredToRetailer" ∨
  role = "retailer" ∧ status_lt cur "AvailableForSale" ∧ new = "AvailableForSale" ∨
  role = "retailer" ∧ status_lt cur "Sold" ∧ new = "Sold".

(** The call is a deletion. *)
Definition is_delete {Coord Timestamp} (c : @Call Coord Timestamp) : Prop :=
  match c with DeleteProduct _ _ => True | _ => False end.

(** What the spec says [add_block] does when it returns a block: the block
    goes to the end of the chain and carries the payload. *)
Definition appends_blocks {Blockchain Block}
    (add_block : Blockchain → gmap string string → AddResult Blockchain Block)
    (chain : Blockchain → list Block) (data : Block → BlockData) : Prop :=
  ∀ bc d bc' b, add_block bc d = Appended bc' b →
                chain bc' = (chain bc ++ [b])%list ∧ data b = DictData d.

(** The ['data'] entry of [b.to_dict()] is [b.data]. *)
Definition dicts_keep_data {Block BlockDict} (data : Block → BlockData)
    (to_dict : Block → BlockDict) (dict_data : BlockDict → BlockData) : Prop :=
  ∀ b, dict_data (to_dict b) = data b.


(** ** A ledger that keeps its blocks

    Its chain is the list of the payloads it was given, and a block is its
    payload. *)
Definition book_add (bc : list (gmap string string)) (d : gmap string string)
  : AddResult (list (gmap string string)) (gmap string string) :=
  Appended (bc ++ [d])%list d.

(** A database that puts every row on the one page and leaves the order as it
    is, and an [int()] that knows two numerals. *)
Definition one_page (page per_page : Z) (l : list Product) : list Product := l.

Definition as_stored (field : string) (desc : bool) (l : list Product) : list Product := l.

Definition small_int (s : string) : option Z :=
  if bool_decide (s = "1") then Some 1%Z
  else if bool_decide (s = "2") then Some 2%Z else None.

(** An [ILIKE] that only knows the pattern matching everything. *)
Definition match_all (value pattern : string) : bool := bool_decide (pattern = "%%").

(** * Properties *)

Section Properties.
Context {Coord : Type} (py_str : Coord → string).
Context {Timestamp : Type}.
Context {Blockchain Block : Type}.
Context (add_block : Blockchain → gmap string string → AddResult Blockchain Block).

#[local] Abbreviation Db := (@Db Coord Timestamp).
#[local] Abbreviation UpdateData := (@UpdateData Coord).
#[local] Abbreviation Response := (@Response Block).
#[local] Abbreviation CreateData := (@CreateData Coord).
#[local] Abbreviation Call := (@Call Coord Timestamp).

(** ** The tables *)

Lemma next_role_some s r : NEXT_ROLE_MAP !! s = Some r ↔ handoff s r.
Proof.
  unfold NEXT_ROLE_MAP, handoff. rewrite !lookup_insert, lookup_empty.
  destruct (decide ("ReadyForShipping" = s)), (decide ("DeliveredToRetailer" = s));
    simpl; split; intros; simplify_eq; intuition congruence.
Qed.

Lemma next_role_none s :
  NEXT_ROLE_MAP !! s = None ↔ s ≠ "ReadyForShipping" ∧ s ≠ "DeliveredToRetailer".
Proof.
  unfold NEXT_ROLE_MAP. rewrite !lookup_insert, lookup_empty.
  destruct (decide ("ReadyForShipping" = s)), (decide ("DeliveredToRetailer" = s));
    simpl; split; intros; simplify_eq; intuition congruence.
Qed.

Lemma sequence_some s r :
  DISTRIBUTOR_SEQUENCE_MAP !! s = Some r ↔ required_predecessor s r.
Proof.
  unfold DISTRIBUTOR_SEQUENCE_MAP, required_predecessor. rewrite !lookup_insert, lookup_empty.
  destruct (decide ("InTransit" = s)), (decide ("DeliveredToRetailer" = s));
    simpl; split; intros; simplify_eq; intuition congruence.
Qed.

Lemma role_allowed_inv role s :
  s ∈ default [] (ROLE_ALLOWED !! role) ↔
  role = "manufacturer" ∧ (s = "Created" ∨ s = "ReadyForShipping") ∨
  role = "distributor" ∧ (s = "Shipped" ∨ s = "InTransit" ∨ s = "DeliveredToRetailer") ∨
  role = "retailer" ∧ (s = "AvailableForSale" ∨ s = "Sold").
Proof.
  unfold ROLE_ALLOWED. rewrite !lookup_insert, lookup_empty.
  destruct (decide ("manufacturer" = role)), (decide ("distributor" = role)),
    (decide ("retailer" = role)); simpl;
    rewrite ?elem_of_cons, ?elem_of_nil; split; intros; simplify_eq; intuition congruence.
Qed.

Lemma recalled_not_allowed role : "Recalled" ∉ default [] (ROLE_ALLOWED !! role).
Proof. rewrite role_allowed_inv. intuition congruence. Qed.

Lemma super_admin_not_allowed s : s ∉ default [] (ROLE_ALLOWED !! "super_admin").
Proof. rewrite role_allowed_inv. intuition congruence. Qed.

Lemma status_index_nonempty s a : status_index s = Some a → s ≠ "".
Proof. intros H ->. discriminate H. Qed.

(** ** Looking rows up after a write *)

Lemma find_product_id i (db : Db) p : find_product i db = Some p → product_id p = i.
Proof.
  unfold find_product. intros H. apply find_some in H as [_ H].
  by apply bool_decide_eq_true in H.
Qed.

Lemma find_write_same i p' (l : list Product) p :
  find (λ p, bool_decide (product_id p = i)) l = Some p →
  product_id p' = i →
  find (λ p, bool_decide (product_id p = i)) (write_product i p' l) = Some p'.
Proof.
  intros Hf Hid. induction l as [|q l IH]; simpl in *; [done|].
  destruct (bool_decide (product_id q = i)) eqn:Hq; simpl.
  - by rewrite bool_decide_eq_true_2.
  - rewrite Hq. by apply IH.
Qed.

Lemma find_write_other i j p' (l : list Product) :
  product_id p' = i → j ≠ i →
  find (λ p, bool_decide (product_id p = j)) (write_product i p' l) =
  find (λ p, bool_decide (product_id p = j)) l.
Proof.
  intros Hid Hne. induction l as [|q l IH]; simpl; [done|].
  destruct (bool_decide (product_id q = i)) eqn:Hq; simpl.
  - apply bool_decide_eq_true in Hq.
    rewrite !bool_decide_eq_false_2 by congruence. done.
  - by rewrite IH.
Qed.

Lemma find_delete_other i j (l : list Product) :
  j ≠ i →
  find (λ p, bool_decide (product_id p = j)) (delete_row i l) =
  find (λ p, bool_decide (product_id p = j)) l.
Proof.
  intros Hne. induction l as [|q l IH]; simpl; [done|].
  destruct (bool_decide (product_id q = i)) eqn:Hq; simpl.
  - apply bool_decide_eq_true in Hq.
    rewrite bool_decide_eq_false_2 by congruence. done.
  - by rewrite IH.
Qed.

Lemma find_delete_same i (l : list Product) :
  NoDup (product_id <$> l) →
  find (λ p, bool_decide (product_id p = i)) (delete_row i l) = None.
Proof.
  induction l as [|q l IH]; simpl; [done|]. intros [Hq Hl]%NoDup_cons.
  destruct (bool_decide (product_id q = i)) eqn:Hqi; simpl.
  - apply bool_decide_eq_true in Hqi. subst i.
    destruct (find _ l) as [r|] eqn:Hr; [|done].
    apply find_some in Hr as [Hin Hr]. apply bool_decide_eq_true in Hr.
    exfalso. apply Hq. rewrite <- Hr. apply list_elem_of_fmap. exists r.
    split; [done|]. by apply list_elem_of_In.
  - rewrite Hqi. by apply IH.
Qed.

Lemma find_app_some {A} (f : A → bool) (l l' : list A) x :
  find f l = Some x → find f (l ++ l') = Some x.
Proof.
  induction l as [|y l IH]; simpl; [done|]. destruct (f y); [done|]. apply IH.
Qed.

Lemma write_product_rows i p' (l : list Product) q :
  q ∈ write_product i p' l → q = p' ∨ q ∈ l.
Proof.
  induction l as [|r l IH]; simpl; [by right|].
  destruct (bool_decide (product_id r = i)); rewrite !elem_of_cons; intuition.
Qed.

Lemma delete_row_rows i (l : list Product) q : q ∈ delete_row i l → q ∈ l.
Proof.
  induction l as [|r l IH]; simpl; [done|].
  destruct (bool_decide (product_id r = i)); rewrite !elem_of_cons; intuition.
Qed.

(** ** The guards of the transition view *)


(** A request gets through the guards exactly when it satisfies all of them. *)
Lemma checks_accept actor role (data : UpdateData) (db : Db) i s p nc :
  transfer_checks (Block:=Block) actor role data db = inr (i, s, p, nc) ↔
  pid data = Some i ∧ i ≠ "" ∧ new_status data = Some s ∧ s ≠ "" ∧
  find_product i db = Some p ∧
  (custodian p = actor ∨ role = "super_admin") ∧
  s ∈ default [] (ROLE_ALLOWED !! role) ∧
  status_lt (current_status p) s ∧
  (role = "distributor" → ∀ r, DISTRIBUTOR_SEQUENCE_MAP !! s = Some r → current_status p = r) ∧
  match NEXT_ROLE_MAP !! s with
  | None => nc = actor
  | Some expected_role =>
    ∃ t u, transfer_to data = Some t ∧ t ≠ "" ∧ find_user t db = Some u ∧
           user_role u = expected_role ∧ nc = username u
  end.
Proof.
  unfold transfer_checks, status_lt, py_le, truthy.
  split.
  - intros H.
    destruct (pid data) as [i'|]; [|done].
    destruct (new_status data) as [s'|]; [|done].
    repeat (case_bool_decide; simpl in H; [done|]).
    destruct (find_product i' db) as [p'|] eqn:Hf; [|done].
    destruct (bool_decide (custodian p' ≠ actor) && bool_decide (role ≠ "super_admin")) eqn:Hc; [done|].
    case_bool_decide as Hr; simpl in H; [|done].
    destruct (status_index s') as [a|] eqn:Ha; [|done].
    destruct (status_index (current_status p')) as [b|] eqn:Hb; [|done].
    destruct (a <=? b)%nat eqn:Hle; [done|]. apply Nat.leb_gt in Hle.
    apply andb_false_iff in Hc. rewrite !bool_decide_eq_false in Hc.
    assert (custodian p' = actor ∨ role = "super_admin") as Hc'.
    { destruct Hc as [Hc|Hc]; [left|right]; by apply dec_stable. }
    assert (role = "distributor" → ∀ r, DISTRIBUTOR_SEQUENCE_MAP !! s' = Some r → current_status p' = r) as Hq.
    { intros -> r Hr'. rewrite Hr' in H. rewrite bool_decide_eq_true_2 in H by done.
      destruct (decide (current_status p' = r)) as [|Hne]; [done|].
      by rewrite (bool_decide_eq_true_2 _ Hne) in H. }
    match type of H with match ?e with _ => _ end = _ => destruct e; [done|] end.
    destruct (NEXT_ROLE_MAP !! s') as [er|] eqn:Hn.
    + destruct (transfer_to data) as [t|]; simpl in H; [|done].
      case_bool_decide; simpl in H; [done|].
      destruct (find_user t db) as [u|] eqn:Hu; [|done].
      case_bool_decide as Hur; [done|]. simplify_eq.
      rewrite Hn. repeat split; eauto 10.
    + simplify_eq. rewrite Hn. repeat split; eauto 10.
  - intros (-> & Hi & -> & Hs & -> & Hc & Hr & (a & b & -> & -> & Hlt) & Hseq & Hn).
    apply Nat.leb_gt in Hlt as ->. simpl.
    rewrite !bool_decide_eq_false_2 by done. simpl.
    rewrite (bool_decide_eq_true_2 _ Hr). simpl.
    assert (bool_decide (custodian p ≠ actor) && bool_decide (role ≠ "super_admin") = false) as ->.
    { apply andb_false_iff.
      destruct Hc as [Hc|Hc]; [left|right]; apply bool_decide_eq_false_2; intros Hne; by apply Hne. }
    assert ((if bool_decide (role = "distributor")
      then match DISTRIBUTOR_SEQUENCE_MAP !! s with
       | Some required_previous_status =>
           if bool_decide (current_status p ≠ required_previous_status)
           then Some (@InvalidSequence Block s required_previous_status)
           else None
       | None => None
       end
      else None) = None) as ->.
    { case_bool_decide as Hd; [|done]. destruct (DISTRIBUTOR_SEQUENCE_MAP !! s) as [r|] eqn:Hr'; [|done].
      rewrite bool_decide_eq_false_2; [done|]. intros Hne. apply Hne. by apply Hseq. }
    destruct (NEXT_ROLE_MAP !! s) as [er|] eqn:Hn'; [|by subst].
    destruct Hn as (t & u & -> & Ht & Hu & Hrole & ->). simpl. rewrite Hu.
    rewrite !bool_decide_eq_false_2 by naive_solver. done.
Qed.

(** What the guards answer when they stop a request. *)
Lemma checks_reject actor role (data : UpdateData) (db : Db) (r : Response) :
  transfer_checks actor role data db = inl r →
  rule_rejection r ∨ r = Unhandled "TypeError".
Proof.
  unfold transfer_checks. intros H.
  destruct (pid data) as [i|]; [|simplify_eq; left; constructor].
  destruct (new_status data) as [s|]; [|simplify_eq; left; constructor].
  destruct (negb _ || negb _); [simplify_eq; left; constructor|].
  destruct (find_product i db) as [p|]; [|simplify_eq; left; constructor].
  destruct (_ && _); [simplify_eq; left; constructor|].
  destruct (negb _); [simplify_eq; left; constructor|].
  destruct (py_le _ _) as [[|]|]; [simplify_eq; left; constructor| |simplify_eq; by right].
  destruct (bool_decide (role = "distributor")).
  - destruct (DISTRIBUTOR_SEQUENCE_MAP !! s) as [q|].
    + destruct (bool_decide (current_status p ≠ q)); [simplify_eq; left; constructor|].
      destruct (NEXT_ROLE_MAP !! s); [|done].
      destruct (negb _); [simplify_eq; left; constructor|].
      destruct (find_user _ db); [|simplify_eq; left; constructor].
      destruct (bool_decide _); [simplify_eq; left; constructor|done].
    + destruct (NEXT_ROLE_MAP !! s); [|done].
      destruct (negb _); [simplify_eq; left; constructor|].
      destruct (find_user _ db); [|simplify_eq; left; constructor].
      destruct (bool_decide _); [simplify_eq; left; constructor|done].
  - destruct (NEXT_ROLE_MAP !! s); [|done].
    destruct (negb _); [simplify_eq; left; constructor|].
    destruct (find_user _ db); [|simplify_eq; left; constructor].
    destruct (bool_decide _); [simplify_eq; left; constructor|done].
Qed.


Lemma transfer_of_reject actor role (data : UpdateData) (db : Db) bc (r : Response) :
  transfer_checks actor role data db = inl r →
  explicit_custody_transfer py_str add_block actor role data db bc = (r, db, bc).
Proof. unfold explicit_custody_transfer. by intros ->. Qed.

Lemma transfer_of_accept actor role (data : UpdateData) (db : Db) bc i s p nc :
  transfer_checks (Block:=Block) actor role data db = inr (i, s, p, nc) →
  explicit_custody_transfer py_str add_block actor role data db bc =
  let r := add_block bc (transfer_event py_str i s actor nc (lat data) (lon data)) in
  (Json (UpdateBody (moved p nc s) (block_info r)) 200,
   commit_transfer i s actor nc p (lat data) (lon data) db, ledger_after r).
Proof. unfold explicit_custody_transfer. by intros ->. Qed.

Lemma rule_rejection_not_accepted (r : Response) : rule_rejection r → ¬ accepted r.
Proof. intros [] (q & b & H); discriminate H. Qed.

(** An accepted request went through the guards, and the answer, the store
    and the ledger are those of the commit. *)
Lemma accepted_inv actor role (data : UpdateData) (db : Db) bc (resp : Response) db' bc' :
  explicit_custody_transfer py_str add_block actor role data db bc = (resp, db', bc') →
  accepted resp →
  ∃ i s p nc,
    transfer_checks (Block:=Block) actor role data db = inr (i, s, p, nc) ∧
    resp = Json (UpdateBody (moved p nc s)
                   (block_info (add_block bc (transfer_event py_str i s actor nc (lat data) (lon data))))) 200 ∧
    db' = commit_transfer i s actor nc p (lat data) (lon data) db ∧
    bc' = ledger_after (add_block bc (transfer_event py_str i s actor nc (lat data) (lon data))).
Proof.
  intros H Hacc.
  destruct (transfer_checks (Block:=Block) actor role data db) as [r|[[[i s] p] nc]] eqn:Hc.
  - rewrite (transfer_of_reject _ _ _ _ _ _ Hc) in H. simplify_eq.
    destruct (checks_reject _ _ _ _ _ Hc) as [Hr| ->].
    + by apply rule_rejection_not_accepted in Hr.
    + destruct Hacc as (q & b & Hq). discriminate Hq.
  - rewrite (transfer_of_accept _ _ _ _ _ _ _ _ _ Hc) in H. simpl in H. simplify_eq.
    exists i, s, p, nc. done.
Qed.

(** Whatever is not accepted leaves the store and the ledger as they were. *)
Lemma not_accepted_unchanged actor role (data : UpdateData) (db : Db) bc (resp : Response) db' bc' :
  explicit_custody_transfer py_str add_block actor role data db bc = (resp, db', bc') →
  ¬ accepted resp →
  db' = db ∧ bc' = bc.
Proof.
  intros H Hacc.
  destruct (transfer_checks (Block:=Block) actor role data db) as [r|[[[i s] p] nc]] eqn:Hc.
  - rewrite (transfer_of_reject _ _ _ _ _ _ Hc) in H. by simplify_eq.
  - rewrite (transfer_of_accept _ _ _ _ _ _ _ _ _ Hc) in H. simpl in H. simplify_eq.
    exfalso. apply Hacc. unfold accepted. eauto.
Qed.

(** ** Rejections come before any write *)

(** C2. A request that one of the validation or authorization rules rejects
    (missing field, product not found, wrong custodian, role not permitted,
    non-monotonic status, distributor sequence, missing or invalid transfer
    target) is answered with the store as it was, so every product keeps its
    status and custodian and no [History] row is added, and with the ledger
    as it was. *)
Theorem rejection_precedes_mutation actor role (data : UpdateData) (db : Db) bc
    (resp : Response) db' bc' :
  explicit_custody_transfer py_str add_block actor role data db bc = (resp, db', bc') →
  rejected resp →
  rule_rejection resp ∧
  products db' = products db ∧ history db' = history db ∧ db' = db ∧ bc' = bc.
Proof.
  intros H (msg & code & ->).
  assert (¬ accepted (error (Block:=Block) msg code)) as Hna.
  { intros (q & b & Hq). discriminate Hq. }
  destruct (not_accepted_unchanged _ _ _ _ _ _ _ _ H Hna) as [-> ->].
  repeat split; try done.
  destruct (transfer_checks (Block:=Block) actor role data db) as [r|[[[i s] p] nc]] eqn:Hc.
  - rewrite (transfer_of_reject _ _ _ _ _ _ Hc) in H. simplify_eq.
    destruct (checks_reject _ _ _ _ _ Hc) as [Hr|Hr]; [done|discriminate Hr].
  - rewrite (transfer_of_accept _ _ _ _ _ _ _ _ _ Hc) in H. discriminate H.
Qed.

(** ** The custodian gate *)

Lemma wrong_custodian_reject actor role (data : UpdateData) (db : Db) bc p s :
  names_product data db p →
  requests_status data s →
  custodian p ≠ actor →
  role ≠ "super_admin" →
  explicit_custody_transfer py_str add_block actor role data db bc = (WrongCustodian p, db, bc).
Proof.
  intros (i & Hi & Hi0 & Hf) [Hs Hs0] Hc Hr.
  apply transfer_of_reject. enter_checks Hi Hi0 Hs Hs0 Hf.
  rewrite (bool_decide_eq_true_2 _ Hc), (bool_decide_eq_true_2 _ Hr). done.
Qed.

(** C3. A request that names an existing product and a status, made by
    somebody who is not the product's custodian and whose role is not
    [super_admin], is answered 403 with the message that names the current
    custodian, whatever the status and the role are; nothing is written. *)
Theorem custodian_gate actor role (data : UpdateData) (db : Db) bc p s :
  names_product data db p →
  requests_status data s →
  custodian p ≠ actor →
  role ≠ "super_admin" →
  explicit_custody_transfer py_str add_block actor role data db bc =
  (error ("Action failed: You are not the current custodian ('" +:+ custodian p +:+ "')") 403,
   db, bc).
Proof. apply wrong_custodian_reject. Qed.

(** ** Monotone status *)

Lemma status_lt_trans s1 s2 s3 : status_lt s1 s2 → status_lt s2 s3 → status_lt s1 s3.
Proof.
  intros (a & b & Ha & Hb & Hab) (b' & c & Hb' & Hc & Hbc).
  exists a, c. rewrite Hb in Hb'. simplify_eq. repeat split; [done..|lia].
Qed.

(** The row of an accepted request after the commit. *)
Lemma commit_lookup i s actor nc p slat slon (db : Db) :
  find_product i db = Some p →
  find_product i (commit_transfer i s actor nc p slat slon db) = Some (moved p nc s).
Proof.
  intros Hf. unfold find_product, commit_transfer. simpl.
  apply (find_write_same _ _ _ p); [done|]. simpl. by apply find_product_id in Hf.
Qed.

Lemma commit_lookup_other i j s actor nc p slat slon (db : Db) :
  find_product i db = Some p → j ≠ i →
  find_product j (commit_transfer i s actor nc p slat slon db) = find_product j db.
Proof.
  intros Hf Hne. unfold find_product, commit_transfer. simpl.
  apply find_write_other; [|done]. simpl. by apply find_product_id in Hf.
Qed.

(** An accepted request moves the product to a strictly later status. *)
Lemma accepted_advances actor role (data : UpdateData) (db : Db) bc (resp : Response) db' bc' p :
  explicit_custody_transfer py_str add_block actor role data db bc = (resp, db', bc') →
  accepted resp →
  names_product data db p →
  ∃ s p', requests_status data s ∧ status_lt (current_status p) s ∧
          names_product data db' p' ∧ current_status p' = s.
Proof.
  intros H Hacc (i & Hi & Hi0 & Hf).
  destruct (accepted_inv _ _ _ _ _ _ _ _ H Hacc) as (j & s & q & nc & Hc & -> & -> & ->).
  apply checks_accept in Hc as (Hj & _ & Hs & Hs0 & Hq & _ & _ & Hlt & _).
  rewrite Hi in Hj. injection Hj as <-. rewrite Hf in Hq. injection Hq as <-.
  exists s, (moved p nc s). repeat split; try done.
  exists i. repeat split; try done. by apply commit_lookup.
Qed.

(** A request for a status that is not later than the current one is always
    answered with an error: that of the custodian guard, of the role guard or
    the invalid-transition one, in the order of the guards. *)
Lemma no_step_back actor role (data : UpdateData) (db : Db) bc p s a b :
  names_product data db p →
  requests_status data s →
  status_index s = Some a →
  status_index (current_status p) = Some b →
  (a ≤ b)%nat →
  ∃ resp, explicit_custody_transfer py_str add_block actor role data db bc = (resp, db, bc) ∧
          rejected resp ∧
          (resp = WrongCustodian p ∨ resp = RoleNotPermitted role s ∨
           resp = InvalidTransition p s) ∧
          (custodian p = actor → s ∈ default [] (ROLE_ALLOWED !! role) →
           resp = InvalidTransition p s).
Proof.
  intros (i & Hi & Hi0 & Hf) [Hs Hs0] Ha Hb Hab.
  assert (∃ resp : Response, transfer_checks actor role data db = inl resp ∧
            (resp = WrongCustodian p ∨ resp = RoleNotPermitted role s ∨
             resp = InvalidTransition p s) ∧
            (custodian p = actor → s ∈ default [] (ROLE_ALLOWED !! role) →
             resp = InvalidTransition p s)) as (resp & Hc & Hor & Hit).
  { enter_checks Hi Hi0 Hs Hs0 Hf.
    destruct (bool_decide (custodian p ≠ actor) && bool_decide (role ≠ "super_admin")) eqn:Hg.
    { eexists; split; [done|]. split; [by left|].
      intros Hcu _. apply andb_true_iff in Hg as [Hg _].
      apply bool_decide_eq_true in Hg. done. }
    destruct (decide (s ∈ default [] (ROLE_ALLOWED !! role))) as [Hr|Hr].
    - rewrite (bool_decide_eq_true_2 _ Hr), Ha, Hb. simpl. apply Nat.leb_le in Hab as ->.
      eexists; split; [done|]. split; [by right; right|done].
    - rewrite (bool_decide_eq_false_2 _ Hr). simpl.
      eexists; split; [done|]. split; [by right; left|done]. }
  exists resp. split; [by apply transfer_of_reject|]. split; [|done].
  destruct Hor as [->|[->| ->]]; eexists _, _; reflexivity.
Qed.

(** What one call does to the row of a product it does not delete: the row
    stays, or the call is an accepted transition of that product. *)
Lemma handle_row (c : Call) (db : Db) bc i p :
  find_product i db = Some p →
  ¬ deletes i c →
  find_product i (handle py_str add_block c db bc).1.2 = Some p ∨
  ∃ actor role data s nc,
    c = ExplicitCustodyTransfer actor role data ∧
    transfer_checks (Block:=Block) actor role data db = inr (i, s, p, nc) ∧
    accepted (handle py_str add_block c db bc).1.1 ∧
    find_product i (handle py_str add_block c db bc).1.2 = Some (moved p nc s).
Proof.
  intros Hf Hdel. destruct c as [actor data j ts|actor role data|actor j]; simpl.
  - left. unfold create_product. destruct (negb _); [done|].
    destruct (add_block _ _); simpl; unfold find_product; simpl; by apply find_app_some.
  - destruct (transfer_checks (Block:=Block) actor role data db) as [r|[[[j s] q] nc]] eqn:Hc.
    + left. by rewrite (transfer_of_reject _ _ _ _ _ _ Hc).
    + rewrite (transfer_of_accept _ _ _ _ _ _ _ _ _ Hc). simpl.
      pose proof Hc as Hc'. apply checks_accept in Hc' as (_ & _ & _ & _ & Hq & _).
      destruct (decide (j = i)) as [->|Hne].
      * rewrite Hf in Hq. injection Hq as <-. right.
        exists actor, role, data, s, nc. repeat split; try done.
        -- unfold accepted. eauto.
        -- by apply commit_lookup.
      * left. rewrite commit_lookup_other; [done..|]. congruence.
  - left. simpl in Hdel. unfold delete_product.
    destruct (find_product j db); [|done].
    destruct (add_block _ _); simpl; unfold find_product; simpl;
      rewrite find_delete_other; done || congruence.
Qed.

(** Over any sequence of calls that does not delete the product, its status
    stays or moves to a later one. *)
Lemma status_never_decreases (cs : list Call) (db : Db) bc i p :
  find_product i db = Some p →
  Forall (λ c, ¬ deletes i c) cs →
  ∃ p', find_product i (run py_str add_block cs db bc).1 = Some p' ∧
        (current_status p' = current_status p ∨
         status_lt (current_status p) (current_status p')).
Proof.
  revert db bc p. induction cs as [|c cs IH]; intros db bc p Hf Hall; simpl.
  - exists p. auto.
  - apply Forall_cons in Hall as [Hc Hall].
    destruct (handle py_str add_block c db bc) as [[resp db'] bc'] eqn:Hh.
    destruct (handle_row c db bc i p Hf Hc) as [Hrow|(actor & role & data & s & nc & _ & Hchk & _ & Hrow)];
      rewrite Hh in Hrow; simpl in Hrow.
    + by apply IH.
    + destruct (IH db' bc' _ Hrow Hall) as (p' & Hp' & Hst). exists p'. split; [done|].
      apply checks_accept in Hchk as (_ & _ & _ & _ & _ & _ & _ & Hlt & _).
      right. simpl in Hst. destruct Hst as [->|Hst]; [done|].
      by apply (status_lt_trans _ s).
Qed.

(** C1, as the code has it.  An accepted transition moves the product to a
    status with a strictly greater index.  A request whose status is not
    later than the current one is always rejected and nothing is written: by
    the custodian guard, by the role guard or with the invalid-transition
    error, and with the latter whenever the actor is the custodian and the
    role may set the status.  So over any sequence of calls the index of a
    product never goes down. *)
Theorem monotone_status :
  (∀ actor role (data : UpdateData) (db : Db) bc (resp : Response) db' bc' p,
     explicit_custody_transfer py_str add_block actor role data db bc = (resp, db', bc') →
     accepted resp →
     names_product data db p →
     ∃ s p', requests_status data s ∧ status_lt (current_status p) s ∧
             names_product data db' p' ∧ current_status p' = s) ∧
  (∀ actor role (data : UpdateData) (db : Db) bc p s a b,
     names_product data db p →
     requests_status data s →
     status_index s = Some a →
     status_index (current_status p) = Some b →
     (a ≤ b)%nat →
     ∃ resp, explicit_custody_transfer py_str add_block actor role data db bc = (resp, db, bc) ∧
             rejected resp ∧
             (resp = WrongCustodian p ∨ resp = RoleNotPermitted role s ∨
              resp = InvalidTransition p s) ∧
             (custodian p = actor → s ∈ default [] (ROLE_ALLOWED !! role) →
              resp = InvalidTransition p s)) ∧
  (∀ (cs : list Call) (db : Db) bc i p,
     find_product i db = Some p →
     Forall (λ c, ¬ deletes i c) cs →
     ∃ p', find_product i (run py_str add_block cs db bc).1 = Some p' ∧
           (current_status p' = current_status p ∨
            status_lt (current_status p) (current_status p'))).
Proof.
  split; [|split].
  - apply accepted_advances.
  - apply no_step_back.
  - apply status_never_decreases.
Qed.

(** ** The transfer target of a handoff *)

Lemma find_user_name t (db : Db) u : find_user t db = Some u → username u = t.
Proof.
  unfold find_user. intros H. apply find_some in H as [_ H].
  by apply bool_decide_eq_true in H.
Qed.

(** Past the custodian, role, order and sequence guards a request arrives at
    the handoff block. *)
Lemma guards_passed actor role (data : UpdateData) (db : Db) i s p :
  pid data = Some i → i ≠ "" → new_status data = Some s → s ≠ "" →
  find_product i db = Some p →
  passes_guards actor role p s →
  transfer_checks (Block:=Block) actor role data db =
  match NEXT_ROLE_MAP !! s with
  | None => inr (i, s, p, actor)
  | Some expected_role =>
    if negb (truthy (transfer_to data)) then inl (MissingTransferTarget s) else
    match find_user (default "" (transfer_to data)) db with
    | None => inl (RecipientNotFound (default "" (transfer_to data)))
    | Some recipient =>
      if bool_decide (user_role recipient ≠ expected_role)
      then inl (RoleMismatch expected_role recipient)
      else inr (i, s, p, username recipient)
    end
  end.
Proof.
  intros Hi Hi0 Hs Hs0 Hf (Hc & Hr & (a & b & Ha & Hb & Hlt) & Hseq).
  enter_checks Hi Hi0 Hs Hs0 Hf.
  assert (bool_decide (custodian p ≠ actor) && bool_decide (role ≠ "super_admin") = false) as ->.
  { apply andb_false_iff.
    destruct Hc as [Hc|Hc]; [left|right]; apply bool_decide_eq_false_2; intros Hne; by apply Hne. }
  rewrite (bool_decide_eq_true_2 _ Hr), Ha, Hb. simpl.
  apply Nat.leb_gt in Hlt as ->.
  destruct (decide (role = "distributor")) as [Hd|Hd].
  - rewrite (bool_decide_eq_true_2 _ Hd).
    destruct (DISTRIBUTOR_SEQUENCE_MAP !! s) as [r|] eqn:Hr'; [|done].
    rewrite bool_decide_eq_false_2; [done|].
    intros Hne. apply Hne, Hseq; [done|]. by apply sequence_some.
  - by rewrite (bool_decide_eq_false_2 _ Hd).
Qed.

(** The three answers of the handoff block, for a request that reached it. *)
Lemma target_rejections actor role (data : UpdateData) (db : Db) bc p s expected_role :
  names_product data db p →
  requests_status data s →
  handoff s expected_role →
  passes_guards actor role p s →
  (truthy (transfer_to data) = false →
   explicit_custody_transfer py_str add_block actor role data db bc =
   (MissingTransferTarget s, db, bc)) ∧
  (∀ t, transfer_to data = Some t → t ≠ "" → find_user t db = None →
   explicit_custody_transfer py_str add_block actor role data db bc =
   (RecipientNotFound t, db, bc)) ∧
  (∀ t u, transfer_to data = Some t → t ≠ "" → find_user t db = Some u →
   user_role u ≠ expected_role →
   explicit_custody_transfer py_str add_block actor role data db bc =
   (RoleMismatch expected_role u, db, bc)).
Proof.
  intros (i & Hi & Hi0 & Hf) [Hs Hs0] Hh Hg.
  pose proof (guards_passed _ _ _ _ _ _ _ Hi Hi0 Hs Hs0 Hf Hg) as Hc.
  apply next_role_some in Hh. rewrite Hh in Hc.
  split; [|split].
  - intros Ht. apply transfer_of_reject. by rewrite Hc, Ht.
  - intros t Ht Ht0 Hu. apply transfer_of_reject. rewrite Hc, Ht. unfold truthy.
    rewrite (bool_decide_eq_false_2 _ Ht0). simpl. by rewrite Hu.
  - intros t u Ht Ht0 Hu Hne. apply transfer_of_reject. rewrite Hc, Ht. unfold truthy.
    rewrite (bool_decide_eq_false_2 _ Ht0). simpl. rewrite Hu.
    by rewrite (bool_decide_eq_true_2 _ Hne).
Qed.

(** A handoff without a stored recipient of the expected role is never
    accepted, whichever guard stops it. *)
Lemma handoff_needs_target actor role (data : UpdateData) (db : Db) bc s expected_role
    (resp : Response) db' bc' :
  requests_status data s →
  handoff s expected_role →
  ¬ valid_target data db expected_role →
  explicit_custody_transfer py_str add_block actor role data db bc = (resp, db', bc') →
  ¬ accepted resp ∧ db' = db ∧ bc' = bc.
Proof.
  intros [Hs Hs0] Hh Hnt H.
  assert (¬ accepted resp) as Hna.
  { intros Hacc.
    destruct (accepted_inv _ _ _ _ _ _ _ _ H Hacc) as (i & s' & p & nc & Hc & _).
    apply checks_accept in Hc as (_ & _ & Hs' & _ & _ & _ & _ & _ & _ & Hn).
    rewrite Hs in Hs'. injection Hs' as <-.
    apply next_role_some in Hh. rewrite Hh in Hn.
    destruct Hn as (t & u & Ht & Ht0 & Hu & Hr & _).
    apply Hnt. by exists t, u. }
  split; [done|]. by apply (not_accepted_unchanged _ _ _ _ _ _ _ _ H).
Qed.

(** C4, as the code has it.  A request for a handoff status that has passed
    the custodian, role, order and sequence guards is answered, with nothing
    written: with the missing-target error when no recipient is given, with
    404 when the recipient is not stored, and with the role-mismatch error
    when the recipient does not hold the expected role.  Whichever guard
    stops it, a handoff request without a stored recipient of the expected
    role is not accepted and nothing is written. *)
Theorem handoff_target_checked :
  (∀ actor role (data : UpdateData) (db : Db) bc p s expected_role,
     names_product data db p →
     requests_status data s →
     handoff s expected_role →
     passes_guards actor role p s →
     (truthy (transfer_to data) = false →
      explicit_custody_transfer py_str add_block actor role data db bc =
      (MissingTransferTarget s, db, bc)) ∧
     (∀ t, transfer_to data = Some t → t ≠ "" → find_user t db = None →
      explicit_custody_transfer py_str add_block actor role data db bc =
      (RecipientNotFound t, db, bc)) ∧
     (∀ t u, transfer_to data = Some t → t ≠ "" → find_user t db = Some u →
      user_role u ≠ expected_role →
      explicit_custody_transfer py_str add_block actor role data db bc =
      (RoleMismatch expected_role u, db, bc))) ∧
  (∀ actor role (data : UpdateData) (db : Db) bc s expected_role (resp : Response) db' bc',
     requests_status data s →
     handoff s expected_role →
     ¬ valid_target data db expected_role →
     explicit_custody_transfer py_str add_block actor role data db bc = (resp, db', bc') →
     ¬ accepted resp ∧ db' = db ∧ bc' = bc).
Proof.
  split.
  - apply target_rejections.
  - apply handoff_needs_target.
Qed.

(** ** The distributor sequence *)

Lemma sequence_respected actor (data : UpdateData) (db : Db) bc (resp : Response) db' bc' p s required :
  explicit_custody_transfer py_str add_block actor "distributor" data db bc = (resp, db', bc') →
  accepted resp →
  names_product data db p →
  requests_status data s →
  required_predecessor s required →
  current_status p = required.
Proof.
  intros H Hacc (i & Hi & _ & Hf) [Hs _] Hreq.
  destruct (accepted_inv _ _ _ _ _ _ _ _ H Hacc) as (j & s' & q & nc & Hc & _).
  apply checks_accept in Hc as (Hj & _ & Hs' & _ & Hq & _ & _ & _ & Hseq & _).
  rewrite Hi in Hj. injection Hj as <-. rewrite Hs in Hs'. injection Hs' as <-.
  rewrite Hf in Hq. injection Hq as <-.
  apply Hseq; [done|]. by apply sequence_some.
Qed.

Lemma sequence_broken actor (data : UpdateData) (db : Db) bc p s required :
  names_product data db p →
  requests_status data s →
  required_predecessor s required →
  current_status p ≠ required →
  ∃ resp, explicit_custody_transfer py_str add_block actor "distributor" data db bc = (resp, db, bc) ∧
          ¬ accepted resp ∧
          (custodian p ≠ actor → resp = WrongCustodian p) ∧
          (custodian p = actor →
           ∀ a b, status_index s = Some a → status_index (current_status p) = Some b →
                  (a ≤ b)%nat → resp = InvalidTransition p s) ∧
          (custodian p = actor → status_lt (current_status p) s →
           resp = InvalidSequence s required).
Proof.
  intros (i & Hi & Hi0 & Hf) [Hs Hs0] Hreq Hne.
  assert (s ∈ default [] (ROLE_ALLOWED !! "distributor")) as Hr.
  { apply role_allowed_inv. right. left. split; [done|].
    destruct Hreq as [[-> _]|[-> _]]; auto. }
  assert (∃ resp : Response, transfer_checks actor "distributor" data db = inl resp ∧
            ¬ accepted resp ∧
            (custodian p ≠ actor → resp = WrongCustodian p) ∧
            (custodian p = actor →
             ∀ a b, status_index s = Some a → status_index (current_status p) = Some b →
                    (a ≤ b)%nat → resp = InvalidTransition p s) ∧
            (custodian p = actor → status_lt (current_status p) s →
             resp = InvalidSequence s required)) as (resp & Hc & Hprops).
  { enter_checks Hi Hi0 Hs Hs0 Hf.
    destruct (decide (custodian p = actor)) as [Hcu|Hcu].
    - rewrite (bool_decide_eq_false_2 (custodian p ≠ actor)) by (intros Hx; by apply Hx).
      simpl. rewrite (bool_decide_eq_true_2 _ Hr). simpl.
      destruct (status_index s) as [a|] eqn:Ha;
        [|destruct Hreq as [[-> _]|[-> _]]; discriminate Ha].
      destruct (status_index (current_status p)) as [b|] eqn:Hb; simpl.
      + destruct (a <=? b)%nat eqn:Hle.
        * eexists; split; [done|]. split; [intros (q & blk & Hq); discriminate Hq|].
          split; [done|]. split; [done|].
          intros _ (b' & a' & Hb' & Ha' & Hlt). apply Nat.leb_le in Hle.
          rewrite Hb in Hb'. rewrite Ha in Ha'. simplify_eq. lia.
        * apply sequence_some in Hreq as ->. rewrite (bool_decide_eq_true_2 _ Hne).
          eexists; split; [done|]. split; [intros (q & blk & Hq); discriminate Hq|].
          split; [done|]. split; [|done].
          intros _ a' b' Ha' Hb' Hab. apply Nat.leb_gt in Hle. simplify_eq. lia.
      + eexists; split; [done|]. split; [intros (q & blk & Hq); discriminate Hq|].
        split; [done|]. split; [intros _ a' b' _ Hb'; congruence|].
        intros _ (b' & a' & Hb' & _). congruence.
    - rewrite (bool_decide_eq_true_2 _ Hcu). simpl.
      eexists; split; [done|]. split; [intros (q & blk & Hq); discriminate Hq|].
      split; [done|]. split; intros Hx; by destruct Hcu. }
  exists resp. split; [by apply transfer_of_reject|done].
Qed.

(** C5, as the code has it.  A distributor's request for [InTransit] or
    [DeliveredToRetailer] is accepted only if the product is exactly in the
    required predecessor ([Shipped], [InTransit]).  Otherwise it is not
    accepted and nothing is written: the answer is the wrong-custodian error
    when the actor does not hold the product, the invalid-transition error
    when the custodian asks for a status that is not later than the current
    one, and the invalid-sequence error when the custodian asks for a status
    that is strictly later. *)
Theorem distributor_sequence_enforced :
  (∀ actor (data : UpdateData) (db : Db) bc (resp : Response) db' bc' p s required,
     explicit_custody_transfer py_str add_block actor "distributor" data db bc = (resp, db', bc') →
     accepted resp →
     names_product data db p →
     requests_status data s →
     required_predecessor s required →
     current_status p = required) ∧
  (∀ actor (data : UpdateData) (db : Db) bc p s required,
     names_product data db p →
     requests_status data s →
     required_predecessor s required →
     current_status p ≠ required →
     ∃ resp, explicit_custody_transfer py_str add_block actor "distributor" data db bc = (resp, db, bc) ∧
             ¬ accepted resp ∧
             (custodian p ≠ actor → resp = WrongCustodian p) ∧
             (custodian p = actor →
              ∀ a b, status_index s = Some a → status_index (current_status p) = Some b →
                     (a ≤ b)%nat → resp = InvalidTransition p s) ∧
             (custodian p = actor → status_lt (current_status p) s →
              resp = InvalidSequence s required)).
Proof.
  split.
  - apply sequence_respected.
  - apply sequence_broken.
Qed.

(** ** A failing ledger append *)

(** The guards let a request through exactly when it satisfies every rule. *)
Lemma validation_accept actor role (data : UpdateData) (db : Db) i s p nc :
  transfer_checks (Block:=Block) actor role data db = inr (i, s, p, nc) ↔
  pid data = Some i ∧ passes_validation actor role data db p s nc.
Proof.
  rewrite checks_accept. unfold passes_validation, names_product, requests_status, passes_guards.
  split.
  - intros (Hi & Hi0 & Hs & Hs0 & Hf & Hc & Hr & Hlt & Hseq & Hn).
    split; [done|]. split; [by exists i|]. split; [done|]. split.
    { repeat split; try done. intros Hd r Hreq. apply Hseq; [done|]. by apply sequence_some. }
    destruct (NEXT_ROLE_MAP !! s) as [e|] eqn:He.
    + right. destruct Hn as (t & u & Ht & Ht0 & Hu & Hur & ->).
      exists e, t, u. repeat split; try done. by apply next_role_some.
    + left. split; [|done]. apply next_role_none in He. unfold handoff_status. tauto.
  - intros (Hi & (j & Hj & Hj0 & Hf) & [Hs Hs0] & (Hc & Hr & Hlt & Hseq) & Hn).
    rewrite Hi in Hj. injection Hj as <-.
    repeat split; try done.
    { intros Hd r Hreq. apply Hseq; [done|]. by apply sequence_some. }
    destruct Hn as [[Hh ->]|(e & t & u & Hh & Ht & Ht0 & Hu & Hur & ->)].
    + assert (NEXT_ROLE_MAP !! s = None) as ->; [|done].
      apply next_role_none. unfold handoff_status in Hh. tauto.
    + apply next_role_some in Hh as ->. by exists t, u.
Qed.

(** Acceptance is satisfaction of every rule. *)
Lemma accepted_iff_valid actor role (data : UpdateData) (db : Db) bc :
  accepted (explicit_custody_transfer py_str add_block actor role data db bc).1.1 ↔
  ∃ p s nc, passes_validation actor role data db p s nc.
Proof.
  split.
  - intros Hacc.
    destruct (explicit_custody_transfer py_str add_block actor role data db bc)
      as [[resp db'] bc'] eqn:H.
    destruct (accepted_inv _ _ _ _ _ _ _ _ H Hacc) as (i & s & p & nc & Hc & _).
    apply validation_accept in Hc as [_ Hv]. eauto.
  - intros (p & s & nc & Hv). pose proof Hv as ((i & Hi & _) & _).
    assert (transfer_checks (Block:=Block) actor role data db = inr (i, s, p, nc)) as Hc
      by by apply validation_accept.
    rewrite (transfer_of_accept _ _ _ _ _ _ _ _ _ Hc). simpl. unfold accepted. eauto.
Qed.

(** C6. When a request satisfies every rule and [add_block] raises, the
    exception is caught: the view still answers 200 with the updated product
    and a null block, and the store holds the commit made before the append
    (the new status and custodian on the product row and the new [History]
    row). *)
Theorem ledger_failure_tolerated actor role (data : UpdateData) (db : Db) bc i s p nc bc' exn :
  pid data = Some i →
  passes_validation actor role data db p s nc →
  add_block bc (transfer_event py_str i s actor nc (lat data) (lon data)) = Raised bc' exn →
  ∃ db',
    explicit_custody_transfer py_str add_block actor role data db bc =
      (Json (UpdateBody (moved p nc s) None) 200, db', bc') ∧
    find_product i db' = Some (moved p nc s) ∧
    current_status (moved p nc s) = s ∧
    custodian (moved p nc s) = nc ∧
    history db' = (history db ++ [mkHistory i s actor None (lat data) (lon data)])%list.
Proof.
  intros Hi Hv Hadd.
  assert (transfer_checks (Block:=Block) actor role data db = inr (i, s, p, nc)) as Hc
    by by apply validation_accept.
  exists (commit_transfer i s actor nc p (lat data) (lon data) db).
  rewrite (transfer_of_accept _ _ _ _ _ _ _ _ _ Hc). simpl. rewrite Hadd. simpl.
  repeat split; try done.
  apply commit_lookup. by apply checks_accept in Hc as (_ & _ & _ & _ & Hq & _).
Qed.

(** ** Who holds the product *)

Lemma custodian_after_accept actor role (data : UpdateData) (db : Db) bc (resp : Response)
    db' bc' p s :
  explicit_custody_transfer py_str add_block actor role data db bc = (resp, db', bc') →
  accepted resp →
  names_product data db p →
  requests_status data s →
  ∃ p' block, resp = Json (UpdateBody p' block) 200 ∧ names_product data db' p' ∧
    (handoff_status s → ∃ t, transfer_to data = Some t ∧ custodian p' = t) ∧
    (¬ handoff_status s → custodian p' = custodian p ∧ custodian p = actor).
Proof.
  intros H Hacc (i & Hi & Hi0 & Hf) [Hs Hs0].
  destruct (accepted_inv _ _ _ _ _ _ _ _ H Hacc) as (j & s' & q & nc & Hc & -> & -> & ->).
  apply checks_accept in Hc as (Hj & _ & Hs' & _ & Hq & Hcu & Hr & _ & _ & Hn).
  rewrite Hi in Hj. injection Hj as <-. rewrite Hs in Hs'. injection Hs' as <-.
  rewrite Hf in Hq. injection Hq as <-.
  eexists (moved p nc s), _. split; [done|]. split; [|split].
  - exists i. repeat split; try done. by apply commit_lookup.
  - intros Hh.
    assert (∃ e, NEXT_ROLE_MAP !! s = Some e) as [e He].
    { destruct Hh as [->| ->]; eexists; apply next_role_some; [left|right]; done. }
    rewrite He in Hn. destruct Hn as (t & u & Ht & _ & Hu & _ & ->).
    exists t. split; [done|]. simpl. by apply find_user_name in Hu.
  - intros Hh.
    assert (NEXT_ROLE_MAP !! s = None) as He.
    { apply next_role_none. unfold handoff_status in Hh. tauto. }
    rewrite He in Hn. subst nc. simpl.
    destruct Hcu as [Hcu| ->]; [done|]. by apply super_admin_not_allowed in Hr.
Qed.

Lemma custodian_frame (c : Call) (db : Db) bc i p p' :
  NoDup (product_id <$> products db) →
  find_product i db = Some p →
  find_product i (handle py_str add_block c db bc).1.2 = Some p' →
  custodian p' ≠ custodian p →
  ∃ actor role data s,
    c = ExplicitCustodyTransfer actor role data ∧
    names_product data db p ∧ requests_status data s ∧ handoff_status s ∧
    accepted (handle py_str add_block c db bc).1.1.
Proof.
  intros Hnd Hf Hf' Hne.
  assert (¬ deletes i c) as Hdel.
  { destruct c as [| |actor j]; simpl; try tauto. intros ->.
    simpl in Hf'. unfold delete_product in Hf'. rewrite Hf in Hf'.
    destruct (add_block _ _); simpl in Hf'; unfold find_product in Hf'; simpl in Hf';
      by rewrite find_delete_same in Hf'. }
  destruct (handle_row c db bc i p Hf Hdel)
    as [Hrow|(actor & role & data & s & nc & -> & Hchk & Hacc & Hrow)].
  - rewrite Hrow in Hf'. by injection Hf' as <-.
  - rewrite Hrow in Hf'. injection Hf' as <-. simpl in Hne.
    apply checks_accept in Hchk as (Hi & Hi0 & Hs & Hs0 & _ & Hcu & Hr & _ & _ & Hn).
    exists actor, role, data, s. split; [done|]. split; [by exists i|]. split; [done|].
    split; [|done].
    destruct (NEXT_ROLE_MAP !! s) as [e|] eqn:He.
    + apply next_role_some in He. destruct He as [[-> _]|[-> _]]; [by left|by right].
    + subst nc. exfalso. apply Hne.
      destruct Hcu as [Hcu| ->]; [done|]. by apply super_admin_not_allowed in Hr.
Qed.

(** C7. After an accepted transition the custodian of the product is the
    transfer target when the status is [ReadyForShipping] or
    [DeliveredToRetailer], and is otherwise the custodian from before, who is
    the actor.  No other call changes it: in a store with unique product ids,
    a call after which a product has another custodian is an accepted
    transition of that product to a handoff status. *)
Theorem custodian_changes_on_handoff_only :
  (∀ actor role (data : UpdateData) (db : Db) bc (resp : Response) db' bc' p s,
     explicit_custody_transfer py_str add_block actor role data db bc = (resp, db', bc') →
     accepted resp →
     names_product data db p →
     requests_status data s →
     ∃ p' block, resp = Json (UpdateBody p' block) 200 ∧ names_product data db' p' ∧
       (handoff_status s → ∃ t, transfer_to data = Some t ∧ custodian p' = t) ∧
       (¬ handoff_status s → custodian p' = custodian p ∧ custodian p = actor)) ∧
  (∀ (c : Call) (db : Db) bc i p p',
     NoDup (product_id <$> products db) →
     find_product i db = Some p →
     find_product i (handle py_str add_block c db bc).1.2 = Some p' →
     custodian p' ≠ custodian p →
     ∃ actor role data s,
       c = ExplicitCustodyTransfer actor role data ∧
       names_product data db p ∧ requests_status data s ∧ handoff_status s ∧
       accepted (handle py_str add_block c db bc).1.1).
Proof.
  split.
  - apply custodian_after_accept.
  - apply custodian_frame.
Qed.

(** ** The location of a ledger event *)

Lemma location_of_create_event i actor slat slon :
  create_event py_str i actor slat slon !! "location" = Some (location py_str slat slon).
Proof.
  unfold create_event. rewrite !lookup_insert_ne by discriminate. apply lookup_insert_eq.
Qed.

Lemma location_of_transfer_event i s actor nc slat slon :
  transfer_event py_str i s actor nc slat slon !! "location" = Some (location py_str slat slon).
Proof.
  unfold transfer_event. rewrite !lookup_insert_ne by discriminate. apply lookup_insert_eq.
Qed.

(** With a latitude and no longitude the f-string formats [None]. *)
Lemma location_without_longitude a : location py_str (Some a) None = py_str a +:+ ",None".
Proof. done. Qed.

(** C8. The payload that [create_product] and an accepted transition hand to
    [add_block] carries under ["location"] the latitude and the longitude of
    the request joined by a comma when both are given, and ["N/A"] when the
    latitude (so, in particular, when both) is absent. *)
Theorem event_location :
  (∀ actor (data : CreateData) id ts (db : Db) bc,
     truthy (c_name data) = true →
     ∃ event,
       (create_product py_str add_block actor data id ts db bc).2 =
         ledger_after (add_block bc event) ∧
       event !! "type" = Some "create_product" ∧
       event !! "location" = Some (location py_str (c_latitude data) (c_longitude data))) ∧
  (∀ actor role (data : UpdateData) (db : Db) bc (resp : Response) db' bc',
     explicit_custody_transfer py_str add_block actor role data db bc = (resp, db', bc') →
     accepted resp →
     ∃ event,
       bc' = ledger_after (add_block bc event) ∧
       event !! "product_id" = pid data ∧
       event !! "status" = new_status data ∧
       event !! "location" = Some (location py_str (lat data) (lon data))) ∧
  (∀ a b, location py_str (Some a) (Some b) = py_str a +:+ "," +:+ py_str b) ∧
  (∀ slon, location py_str None slon = "N/A").
Proof.
  split; [|split; [|split]].
  - intros actor data id ts db bc Hn.
    exists (create_event py_str id actor (c_latitude data) (c_longitude data)).
    split; [|split].
    + unfold create_product. rewrite Hn. simpl. by destruct (add_block _ _).
    + done.
    + apply location_of_create_event.
  - intros actor role data db bc resp db' bc' H Hacc.
    destruct (accepted_inv _ _ _ _ _ _ _ _ H Hacc) as (i & s & p & nc & Hc & _ & _ & ->).
    apply checks_accept in Hc as (Hi & _ & Hs & _).
    exists (transfer_event py_str i s actor nc (lat data) (lon data)).
    split; [done|]. rewrite Hi, Hs. split; [|split].
    + unfold transfer_event. rewrite lookup_insert_ne by discriminate. apply lookup_insert_eq.
    + unfold transfer_event. rewrite !lookup_insert_ne by discriminate. apply lookup_insert_eq.
    + apply location_of_transfer_event.
  - done.
  - done.
Qed.

(** ** Statuses and roles outside the tables *)

Lemma recalled_request actor role (data : UpdateData) (db : Db) bc p :
  names_product data db p →
  requests_status data "Recalled" →
  custodian p = actor ∨ role = "super_admin" →
  explicit_custody_transfer py_str add_block actor role data db bc =
  (RoleNotPermitted role "Recalled", db, bc).
Proof.
  intros (i & Hi & Hi0 & Hf) [Hs Hs0] Hc.
  apply transfer_of_reject. enter_checks Hi Hi0 Hs Hs0 Hf.
  assert (bool_decide (custodian p ≠ actor) && bool_decide (role ≠ "super_admin") = false) as ->.
  { apply andb_false_iff.
    destruct Hc as [Hc|Hc]; [left|right]; apply bool_decide_eq_false_2; intros Hne; by apply Hne. }
  by rewrite (bool_decide_eq_false_2 _ (recalled_not_allowed role)).
Qed.

Lemma recalled_never_accepted actor role (data : UpdateData) (db : Db) bc (resp : Response) db' bc' :
  new_status data = Some "Recalled" →
  explicit_custody_transfer py_str add_block actor role data db bc = (resp, db', bc') →
  rejected resp ∧ db' = db ∧ bc' = bc.
Proof.
  intros Hs H.
  destruct (transfer_checks (Block:=Block) actor role data db) as [r|[[[i s] p] nc]] eqn:Hc.
  - rewrite (transfer_of_reject _ _ _ _ _ _ Hc) in H. injection H as <- <- <-.
    split; [|done]. revert Hc. unfold transfer_checks. rewrite Hs.
    destruct (pid data) as [i|]; [|intros [= <-]; eexists _, _; reflexivity].
    destruct (negb _ || negb _); [intros [= <-]; eexists _, _; reflexivity|].
    destruct (find_product i db) as [p|]; [|intros [= <-]; eexists _, _; reflexivity].
    destruct (_ && _); [intros [= <-]; eexists _, _; reflexivity|].
    rewrite (bool_decide_eq_false_2 _ (recalled_not_allowed role)). simpl.
    intros [= <-]; eexists _, _; reflexivity.
  - apply checks_accept in Hc as (_ & _ & Hs' & _ & _ & _ & Hr & _).
    rewrite Hs in Hs'. injection Hs' as <-. by apply recalled_not_allowed in Hr.
Qed.

Lemma handle_keeps_unrecalled (c : Call) (db : Db) bc :
  (∀ p, p ∈ products db → current_status p ≠ "Recalled") →
  ∀ p, p ∈ products (handle py_str add_block c db bc).1.2 → current_status p ≠ "Recalled".
Proof.
  intros Hall p. destruct c as [actor data j ts|actor role data|actor j]; simpl.
  - unfold create_product. destruct (negb _); simpl; [apply Hall|].
    destruct (add_block _ _); simpl; rewrite elem_of_app, list_elem_of_singleton;
      (intros [Hp| ->]; [by apply Hall|discriminate]).
  - destruct (transfer_checks (Block:=Block) actor role data db) as [r|[[[i s] q] nc]] eqn:Hc.
    + rewrite (transfer_of_reject _ _ _ _ _ _ Hc). apply Hall.
    + rewrite (transfer_of_accept _ _ _ _ _ _ _ _ _ Hc). simpl.
      intros [->|Hp]%write_product_rows; [|by apply Hall]. simpl. intros ->.
      apply checks_accept in Hc as (_ & _ & _ & _ & _ & _ & Hr & _).
      by apply recalled_not_allowed in Hr.
  - unfold delete_product. destruct (find_product j db); simpl; [|apply Hall].
    destruct (add_block _ _); simpl; intros Hp%delete_row_rows; by apply Hall.
Qed.

Lemma run_keeps_unrecalled (cs : list Call) (db : Db) bc :
  (∀ p, p ∈ products db → current_status p ≠ "Recalled") →
  ∀ p, p ∈ products (run py_str add_block cs db bc).1 → current_status p ≠ "Recalled".
Proof.
  revert db bc. induction cs as [|c cs IH]; intros db bc Hall; simpl; [done|].
  pose proof (handle_keeps_unrecalled c db bc Hall) as Hstep.
  destruct (handle py_str add_block c db bc) as [[resp db'] bc']. by apply IH.
Qed.

(** C9, as the code has it.  [Recalled] is in [STATUS_ORDER] and in no role's
    list.  A request for it that gets to the role guard (a product id, an
    existing product, an actor who is the custodian or a [super_admin]) is
    rejected there; any other is rejected by an earlier guard.  Either way
    nothing is written, and no sequence of calls brings a product of the store
    to [Recalled]. *)
Theorem recalled_unreachable :
  (is_Some (status_index "Recalled") ∧
   ∀ role, "Recalled" ∉ default [] (ROLE_ALLOWED !! role)) ∧
  (∀ actor role (data : UpdateData) (db : Db) bc p,
     names_product data db p →
     requests_status data "Recalled" →
     custodian p = actor ∨ role = "super_admin" →
     explicit_custody_transfer py_str add_block actor role data db bc =
     (RoleNotPermitted role "Recalled", db, bc)) ∧
  (∀ actor role (data : UpdateData) (db : Db) bc p,
     names_product data db p →
     requests_status data "Recalled" →
     custodian p ≠ actor →
     role ≠ "super_admin" →
     explicit_custody_transfer py_str add_block actor role data db bc =
     (WrongCustodian p, db, bc)) ∧
  (∀ actor role (data : UpdateData) (db : Db) bc (resp : Response) db' bc',
     new_status data = Some "Recalled" →
     explicit_custody_transfer py_str add_block actor role data db bc = (resp, db', bc') →
     rejected resp ∧ db' = db ∧ bc' = bc) ∧
  (∀ (cs : list Call) (db : Db) bc,
     (∀ p, p ∈ products db → current_status p ≠ "Recalled") →
     ∀ p, p ∈ products (run py_str add_block cs db bc).1 → current_status p ≠ "Recalled").
Proof.
  split; [|split; [|split; [|split]]].
  - split; [by eexists|apply recalled_not_allowed].
  - apply recalled_request.
  - intros actor role data db bc p. apply wrong_custodian_reject.
  - apply recalled_never_accepted.
  - apply run_keeps_unrecalled.
Qed.

Lemma super_admin_rejected actor (data : UpdateData) (db : Db) bc p s :
  names_product data db p →
  requests_status data s →
  explicit_custody_transfer py_str add_block actor "super_admin" data db bc =
  (RoleNotPermitted "super_admin" s, db, bc).
Proof.
  intros (i & Hi & Hi0 & Hf) [Hs Hs0].
  apply transfer_of_reject. enter_checks Hi Hi0 Hs Hs0 Hf.
  rewrite andb_false_r.
  by rewrite (bool_decide_eq_false_2 _ (super_admin_not_allowed s)).
Qed.

Lemma accepted_actor_is_custodian actor role (data : UpdateData) (db : Db) bc (resp : Response)
    db' bc' :
  explicit_custody_transfer py_str add_block actor role data db bc = (resp, db', bc') →
  accepted resp →
  role ≠ "super_admin" ∧ ∃ p, names_product data db p ∧ custodian p = actor.
Proof.
  intros H Hacc.
  destruct (accepted_inv _ _ _ _ _ _ _ _ H Hacc) as (i & s & p & nc & Hc & _).
  apply checks_accept in Hc as (Hi & Hi0 & _ & _ & Hf & Hcu & Hr & _).
  assert (role ≠ "super_admin") as Hne.
  { intros ->. by apply super_admin_not_allowed in Hr. }
  split; [done|]. exists p. split; [by exists i|]. by destruct Hcu.
Qed.

(** C10. A [super_admin] gets past the custodian guard whoever holds the
    product, but has no entry in [ROLE_ALLOWED]: a request of theirs for an
    existing product is rejected by the role guard, none of their requests is
    accepted, and so the actor of every accepted transition is the custodian
    the product had when the request came. *)
Theorem super_admin_never_accepted :
  ROLE_ALLOWED !! "super_admin" = None ∧
  (∀ actor (data : UpdateData) (db : Db) bc p s,
     names_product data db p →
     requests_status data s →
     explicit_custody_transfer py_str add_block actor "super_admin" data db bc =
     (RoleNotPermitted "super_admin" s, db, bc)) ∧
  (∀ actor (data : UpdateData) (db : Db) bc,
     ¬ accepted (explicit_custody_transfer py_str add_block actor "super_admin" data db bc).1.1) ∧
  (∀ actor role (data : UpdateData) (db : Db) bc (resp : Response) db' bc',
     explicit_custody_transfer py_str add_block actor role data db bc = (resp, db', bc') →
     accepted resp →
     role ≠ "super_admin" ∧ ∃ p, names_product data db p ∧ custodian p = actor).
Proof.
  split; [|split; [|split]].
  - done.
  - apply super_admin_rejected.
  - intros actor data db bc Hacc.
    destruct (explicit_custody_transfer py_str add_block actor "super_admin" data db bc)
      as [[resp db'] bc'] eqn:H.
    by destruct (accepted_actor_is_custodian _ _ _ _ _ _ _ _ H Hacc) as [Hne _].
  - apply accepted_actor_is_custodian.
Qed.

(** * Further properties *)

(** ** [status_index] and the tables *)

Lemma list_index_lookup s l i : list_index s l = Some i → l !! i = Some s.
Proof.
  revert i. induction l as [|x l IH]; intros i; simpl; [done|].
  case_bool_decide as Hx; [by intros [= <-]; subst|].
  destruct (list_index s l) as [j|]; simpl; [|done]. intros [= <-]. by apply IH.
Qed.

Lemma list_index_None s l : list_index s l = None ↔ s ∉ l.
Proof.
  induction l as [|x l IH]; simpl.
  - split; [intros _; apply not_elem_of_nil|done].
  - rewrite not_elem_of_cons. case_bool_decide as Hx.
    + split; [done|]. intros [Hne _]. by destruct Hne.
    + destruct (list_index s l) as [j|]; simpl.
      * split; [done|]. intros [_ Hl]. by apply IH in Hl.
      * split; [|done]. intros _. split; [congruence|]. by apply IH.
Qed.

Lemma list_index_of_lookup s l i : NoDup l → l !! i = Some s → list_index s l = Some i.
Proof.
  intros Hnd Hl. destruct (list_index s l) as [j|] eqn:Hj.
  - f_equal. apply list_index_lookup in Hj. by apply (NoDup_lookup l j i s).
  - apply list_index_None in Hj. exfalso. apply Hj. by apply list_elem_of_lookup_2 in Hl.
Qed.

Lemma STATUS_ORDER_NoDup : NoDup STATUS_ORDER.
Proof. apply (bool_decide_unpack _). vm_compute. exact I. Qed.

(** X1. [status_index] inverts the indexing of [STATUS_ORDER]: it gives [i]
    exactly for the status at position [i] and [None] exactly for a string
    that is not in the list, so two statuses with the same index are the
    same. *)
Theorem status_index_inverts_lookup :
  (∀ s i, status_index s = Some i ↔ STATUS_ORDER !! i = Some s) ∧
  (∀ s, status_index s = None ↔ s ∉ STATUS_ORDER) ∧
  (∀ s s' i, status_index s = Some i → status_index s' = Some i → s = s').
Proof.
  split; [|split].
  - intros s i. split; [apply list_index_lookup|].
    apply list_index_of_lookup, STATUS_ORDER_NoDup.
  - intros s. apply list_index_None.
  - intros s s' i Hs Hs'. apply list_index_lookup in Hs, Hs'. congruence.
Qed.

Lemma allowed_has_index role s :
  s ∈ default [] (ROLE_ALLOWED !! role) → is_Some (status_index s).
Proof.
  rewrite role_allowed_inv.
  intros [[_ [->| ->]]|[[_ [->|[->| ->]]]|[_ [->| ->]]]]; by eexists.
Qed.

(** X2. The role table is a separation of duties over known statuses: every
    status a role may set is in [STATUS_ORDER], and no status may be set by
    two different roles. *)
Theorem roles_split_the_statuses :
  (∀ role s, s ∈ default [] (ROLE_ALLOWED !! role) → is_Some (status_index s)) ∧
  (∀ role role' s,
     s ∈ default [] (ROLE_ALLOWED !! role) →
     s ∈ default [] (ROLE_ALLOWED !! role') →
     role = role').
Proof.
  split; [apply allowed_has_index|].
  intros role role' s. rewrite !role_allowed_inv.
  intros [[-> [->| ->]]|[[-> [->|[->| ->]]]|[-> [->| ->]]]]
         [[-> [?| ?]]|[[-> [?|[?| ?]]]|[-> [?| ?]]]]; done.
Qed.

(** ** When the transition view raises *)






(** ** The moves of the state machine *)

Lemma status_lt_inv cur s b :
  status_index s = Some b →
  status_lt cur s ↔ ∃ a, status_index cur = Some a ∧ a < b.
Proof.
  intros Hb. unfold status_lt. split.
  - intros (a & b' & Ha & Hb' & Hlt). rewrite Hb in Hb'. injection Hb' as <-. eauto.
  - intros (a & Ha & Hlt). eauto.
Qed.

Lemma status_at cur a : status_index cur = Some a → STATUS_ORDER !! a = Some cur.
Proof. apply list_index_lookup. Qed.

(** The guards after the custodian one, as a table of moves. *)
Lemma guards_table actor role p s :
  passes_guards actor role p s ↔
  custodian p = actor ∧ allowed_move role (current_status p) s.
Proof.
  unfold passes_guards, allowed_move. split.
  - intros (Hc & Hr & Hlt & Hseq).
    assert (custodian p = actor) as Hcu.
    { destruct Hc as [Hc| ->]; [done|]. by apply super_admin_not_allowed in Hr. }
    split; [done|]. clear Hc.
    apply role_allowed_inv in Hr as [[-> [->| ->]]|[[-> [->|[->| ->]]]|[-> [->| ->]]]].
    + destruct Hlt as (a & b & _ & [= <-] & Hlt). lia.
    + left. split; [done|]. split; [|done].
      destruct Hlt as (a & b & Ha & [= <-] & Hlt). apply status_at in Ha.
      destruct a as [|a]; [|lia]. by injection Ha as <-.
    + right. left. split; [done|]. split; [|done].
      destruct Hlt as (a & b & Ha & [= <-] & Hlt). apply status_at in Ha.
      destruct a as [|[|a]]; [injection Ha as <-; by left|injection Ha as <-; by right|lia].
    + right. right. left. split; [done|]. split; [|done].
      apply Hseq; [done|]. by left.
    + right. right. right. left. split; [done|]. split; [|done].
      apply Hseq; [done|]. by right.
    + do 4 right. left. done.
    + do 5 right. done.
  - intros (Hcu & H). split; [by left|].
    destruct H as [(-> & Hcur & ->)|[(-> & Hcur & ->)|[(-> & Hcur & ->)|[(-> & Hcur & ->)|
                  [(-> & Hcur & ->)|(-> & Hcur & ->)]]]]].
    + rewrite Hcur. split; [is_allowed|]. split; [exists 0, 1; repeat split; lia|]. done.
    + split; [is_allowed|]. split.
      * destruct Hcur as [->| ->]; [exists 0, 2|exists 1, 2]; repeat split; lia.
      * intros _ r [[? _]|[? _]]; done.
    + rewrite Hcur. split; [is_allowed|]. split; [exists 2, 3; repeat split; lia|].
      intros _ r [[_ ->]|[? _]]; done.
    + rewrite Hcur. split; [is_allowed|]. split; [exists 3, 4; repeat split; lia|].
      intros _ r [[? _]|[_ ->]]; done.
    + split; [is_allowed|]. split; [done|]. done.
    + split; [is_allowed|]. split; [done|]. done.
Qed.

Lemma accepted_guards actor role (data : UpdateData) (db : Db) bc (resp : Response) db' bc' p s :
  explicit_custody_transfer py_str add_block actor role data db bc = (resp, db', bc') →
  accepted resp →
  names_product data db p →
  requests_status data s →
  passes_guards actor role p s.
Proof.
  intros H Hacc (i & Hi & _ & Hf) [Hs _].
  destruct (accepted_inv _ _ _ _ _ _ _ _ H Hacc) as (j & s' & q & nc & Hc & _).
  apply validation_accept in Hc as (Hj & (k & Hk & _ & Hq) & [Hs' _] & Hg & _).
  rewrite Hi in Hj. injection Hj as <-. rewrite Hi in Hk. injection Hk as <-.
  rewrite Hs in Hs'. injection Hs' as <-. rewrite Hf in Hq. by injection Hq as <-.
Qed.

(** X5. The moves the transition view accepts.  An accepted request is made
    by the custodian and is one of: a manufacturer taking a [Created] product
    to [ReadyForShipping]; a distributor taking a product to [Shipped] (from
    [Created] or [ReadyForShipping]), from [Shipped] to [InTransit], or from
    [InTransit] to [DeliveredToRetailer]; a retailer taking a product from any
    earlier status to [AvailableForSale] or to [Sold].  These are exactly the
    requests that pass the guards before the handoff block. *)
Theorem accepted_moves :
  (∀ actor role (data : UpdateData) (db : Db) bc (resp : Response) db' bc' p s,
     explicit_custody_transfer py_str add_block actor role data db bc = (resp, db', bc') →
     accepted resp →
     names_product data db p →
     requests_status data s →
     custodian p = actor ∧ allowed_move role (current_status p) s) ∧
  (∀ actor role p s,
     passes_guards actor role p s ↔
     custodian p = actor ∧ allowed_move role (current_status p) s).
Proof.
  split.
  - intros actor role data db bc resp db' bc' p s H Hacc Hn Hs.
    apply guards_table. by apply (accepted_guards _ _ _ _ _ _ _ _ _ _ H).
  - apply guards_table.
Qed.

(** X6. [Sold] and [Recalled] are final: no request on a product in one of
    them is accepted, whoever makes it and whatever it asks for, and nothing
    is written. *)
Theorem sold_and_recalled_are_final actor role (data : UpdateData) (db : Db) bc p :
  names_product data db p →
  current_status p = "Sold" ∨ current_status p = "Recalled" →
  ¬ accepted (explicit_custody_transfer py_str add_block actor role data db bc).1.1 ∧
  (explicit_custody_transfer py_str add_block actor role data db bc).1.2 = db ∧
  (explicit_custody_transfer py_str add_block actor role data db bc).2 = bc.
Proof.
  intros Hn Hcur.
  destruct (explicit_custody_transfer py_str add_block actor role data db bc)
    as [[resp db'] bc'] eqn:H. simpl.
  assert (¬ accepted resp) as Hna.
  { intros Hacc.
    destruct (accepted_inv _ _ _ _ _ _ _ _ H Hacc) as (j & s & q & nc & Hc & _).
    apply checks_accept in Hc as (_ & Hj0 & Hs & Hs0 & _).
    assert (requests_status data s) as Hrs by done.
    pose proof (accepted_guards _ _ _ _ _ _ _ _ _ _ H Hacc Hn Hrs) as Hg.
    apply guards_table in Hg as [_ Hm]. unfold allowed_move in Hm.
    assert (∀ t b, status_index t = Some b → (b ≤ 6)%nat → ¬ status_lt (current_status p) t) as Hno.
    { intros t b Hb Hle (a & b' & Ha & Hb' & Hlt). rewrite Hb in Hb'. injection Hb' as <-.
      destruct Hcur as [Hcur|Hcur]; rewrite Hcur in Ha; injection Ha as <-; lia. }
    destruct Hm as [(_ & Hc' & _)|[(_ & Hc' & _)|[(_ & Hc' & _)|[(_ & Hc' & _)|
                   [(_ & Hc' & _)|(_ & Hc' & _)]]]]].
    - destruct Hcur; congruence.
    - destruct Hcur, Hc'; congruence.
    - destruct Hcur; congruence.
    - destruct Hcur; congruence.
    - by apply (Hno "AvailableForSale" 5) in Hc'; [|done|lia].
    - by apply (Hno "Sold" 6) in Hc'; [|done|lia]. }
  split; [done|]. by apply (not_accepted_unchanged _ _ _ _ _ _ _ _ H).
Qed.

(** ** What the writing views leave alone *)

Lemma handle_users (c : Call) (db : Db) bc :
  users (handle py_str add_block c db bc).1.2 = users db.
Proof.
  destruct c as [actor data j ts|actor role data|actor j]; simpl.
  - unfold create_product. destruct (negb _); [done|]. by destruct (add_block _ _).
  - destruct (transfer_checks (Block:=Block) actor role data db) as [r|[[[i s] q] nc]] eqn:Hc.
    + by rewrite (transfer_of_reject _ _ _ _ _ _ Hc).
    + by rewrite (transfer_of_accept _ _ _ _ _ _ _ _ _ Hc).
  - unfold delete_product. destruct (find_product j db); [|done]. by destruct (add_block _ _).
Qed.

(** X7. No view rewrites what identifies a product or a user: over any
    sequence of calls that does not delete it, a product keeps its id, name,
    owner and description, and over any sequence of calls the table of users
    stays as it was. *)
Theorem identity_kept :
  (∀ (cs : list Call) (db : Db) bc i p,
     find_product i db = Some p →
     Forall (λ c, ¬ deletes i c) cs →
     ∃ p', find_product i (run py_str add_block cs db bc).1 = Some p' ∧
           product_id p' = product_id p ∧ name p' = name p ∧
           owner p' = owner p ∧ description p' = description p) ∧
  (∀ (cs : list Call) (db : Db) bc, users (run py_str add_block cs db bc).1 = users db).
Proof.
  split.
  - intros cs. induction cs as [|c cs IH]; intros db bc i p Hf Hall; simpl.
    + exists p. done.
    + apply Forall_cons in Hall as [Hc Hall].
      destruct (handle py_str add_block c db bc) as [[resp db'] bc'] eqn:Hh.
      destruct (handle_row c db bc i p Hf Hc)
        as [Hrow|(actor & role & data & s & nc & _ & _ & _ & Hrow)];
        rewrite Hh in Hrow; simpl in Hrow.
      * by apply IH.
      * destruct (IH db' bc' i _ Hrow Hall) as (p' & Hp' & H1 & H2 & H3 & H4).
        exists p'. done.
  - intros cs. induction cs as [|c cs IH]; intros db bc; simpl; [done|].
    pose proof (handle_users c db bc) as Hu.
    destruct (handle py_str add_block c db bc) as [[resp db'] bc']. simpl in Hu.
    by rewrite IH.
Qed.

(** ** The audit trail *)

Lemma handle_history (c : Call) (db : Db) bc :
  ¬ is_delete c → history db `prefix_of` history (handle py_str add_block c db bc).1.2.
Proof.
  intros Hd. destruct c as [actor data j ts|actor role data|actor j]; simpl; [| |by destruct Hd].
  - unfold create_product. destruct (negb _); [done|].
    destruct (add_block _ _); simpl; by apply prefix_app_r.
  - destruct (transfer_checks (Block:=Block) actor role data db) as [r|[[[i s] q] nc]] eqn:Hc.
    + by rewrite (transfer_of_reject _ _ _ _ _ _ Hc).
    + rewrite (transfer_of_accept _ _ _ _ _ _ _ _ _ Hc). simpl. by apply prefix_app_r.
Qed.

(** X8. [History] is an append-only trail of the transitions.  An accepted
    request adds exactly one row, after the rows that were there, with the
    product id, the new status, the actor and the coordinates of the request;
    and over any sequence of creations and transitions the rows that were
    there stay, in their order, at the head of the table. *)
Theorem history_appended :
  (∀ actor role (data : UpdateData) (db : Db) bc (resp : Response) db' bc',
     explicit_custody_transfer py_str add_block actor role data db bc = (resp, db', bc') →
     accepted resp →
     ∃ i s, pid data = Some i ∧ new_status data = Some s ∧
            history db' = (history db ++ [mkHistory i s actor None (lat data) (lon data)])%list) ∧
  (∀ (cs : list Call) (db : Db) bc,
     Forall (λ c, ¬ is_delete c) cs →
     history db `prefix_of` history (run py_str add_block cs db bc).1).
Proof.
  split.
  - intros actor role data db bc resp db' bc' H Hacc.
    destruct (accepted_inv _ _ _ _ _ _ _ _ H Hacc) as (i & s & p & nc & Hc & _ & -> & _).
    apply checks_accept in Hc as (Hi & _ & Hs & _). by exists i, s.
  - intros cs. induction cs as [|c cs IH]; intros db bc Hall; simpl; [done|].
    apply Forall_cons in Hall as [Hc Hall].
    pose proof (handle_history c db bc Hc) as Hstep.
    destruct (handle py_str add_block c db bc) as [[resp db'] bc']. simpl in Hstep.
    etrans; [done|]. by apply IH.
Qed.

(** ** The ledger event and the store *)

Lemma transfer_event_type i s actor nc slat slon :
  transfer_event py_str i s actor nc slat slon !! "type" =
  Some (if bool_decide (handoff_status s) then "custody_transfer" else "status_update").
Proof.
  unfold transfer_event. rewrite lookup_insert_eq. f_equal.
  destruct (NEXT_ROLE_MAP !! s) as [e|] eqn:He.
  - rewrite bool_decide_eq_true_2 by by eexists.
    rewrite bool_decide_eq_true_2; [done|].
    apply next_role_some in He as [[-> _]|[-> _]]; [by left|by right].
  - rewrite (bool_decide_eq_false_2 (is_Some None)) by by intros [? ?].
    rewrite bool_decide_eq_false_2; [done|].
    apply next_role_none in He. unfold handoff_status. tauto.
Qed.

(** X9. The event of an accepted transition says what the store says: the
    payload handed to [add_block] carries the id, the status and the
    custodian of the product row as committed, the actor of the request, and
    the type [custody_transfer] for a handoff status and [status_update] for
    any other. *)
Theorem event_agrees_with_store actor role (data : UpdateData) (db : Db) bc
    (resp : Response) db' bc' :
  explicit_custody_transfer py_str add_block actor role data db bc = (resp, db', bc') →
  accepted resp →
  ∃ event p',
    bc' = ledger_after (add_block bc event) ∧
    names_product data db' p' ∧
    resp = Json (UpdateBody p' (block_info (add_block bc event))) 200 ∧
    event !! "product_id" = Some (product_id p') ∧
    event !! "status" = Some (current_status p') ∧
    event !! "new_custodian" = Some (custodian p') ∧
    event !! "actor" = Some actor ∧
    event !! "type" = Some (if bool_decide (handoff_status (current_status p'))
                            then "custody_transfer" else "status_update").
Proof.
  intros H Hacc.
  destruct (accepted_inv _ _ _ _ _ _ _ _ H Hacc) as (i & s & p & nc & Hc & -> & -> & ->).
  apply checks_accept in Hc as (Hi & Hi0 & Hs & _ & Hf & _).
  exists (transfer_event py_str i s actor nc (lat data) (lon data)), (moved p nc s).
  split; [done|]. split.
  { exists i. repeat split; try done. by apply commit_lookup. }
  split; [done|]. simpl. rewrite (find_product_id _ _ _ Hf).
  split; [|split; [|split; [|split]]].
  - unfold transfer_event. rewrite lookup_insert_ne by discriminate. apply lookup_insert_eq.
  - unfold transfer_event. rewrite !lookup_insert_ne by discriminate. apply lookup_insert_eq.
  - unfold transfer_event. rewrite !lookup_insert_ne by discriminate. apply lookup_insert_eq.
  - unfold transfer_event. rewrite !lookup_insert_ne by discriminate. apply lookup_insert_eq.
  - apply transfer_event_type.
Qed.

(** ** [create_product] *)

Lemma find_app_none {A} (f : A → bool) (l l' : list A) :
  find f l = None → find f (l ++ l') = find f l'.
Proof.
  induction l as [|y l IH]; simpl; [done|]. destruct (f y); [done|]. apply IH.
Qed.

(** The store [create_product] commits, whether or not the ledger then takes
    the event. *)
Lemma create_product_store actor (data : CreateData) id ts (db : Db) bc :
  truthy (c_name data) = true →
  (create_product py_str add_block actor data id ts db bc).1.2 =
  mkDb (products db ++ [mkProduct id (default "" (c_name data)) actor actor
                          (default "" (c_description data)) "Created"])
       (users db)
       (history db ++ [mkHistory id "Created" actor (Some ts) (c_latitude data) (c_longitude data)]).
Proof.
  intros Hn. unfold create_product. rewrite Hn. simpl. by destruct (add_block _ _).
Qed.

(** X10. [create_product] without a name answers 400 and writes nothing.
    With a name it adds a product owned and held by the actor, in status
    [Created], and one [History] row with the time and the coordinates of the
    request; every product that could be looked up before is looked up
    unchanged, and under an id that was not in use the new product is what a
    lookup returns. *)
Theorem create_product_adds_row actor (data : CreateData) id ts (db : Db) bc :
  (truthy (c_name data) = false →
   create_product py_str add_block actor data id ts db bc =
   (error "Product name is required" 400, db, bc)) ∧
  (truthy (c_name data) = true →
   ∃ product,
     products (create_product py_str add_block actor data id ts db bc).1.2 =
       (products db ++ [product])%list ∧
     product_id product = id ∧ owner product = actor ∧ custodian product = actor ∧
     current_status product = "Created" ∧ Some (name product) = c_name data ∧
     history (create_product py_str add_block actor data id ts db bc).1.2 =
       (history db ++
        [mkHistory id "Created" actor (Some ts) (c_latitude data) (c_longitude data)])%list ∧
     (∀ j p, find_product j db = Some p →
             find_product j (create_product py_str add_block actor data id ts db bc).1.2 = Some p) ∧
     (find_product id db = None →
      find_product id (create_product py_str add_block actor data id ts db bc).1.2 = Some product)).
Proof.
  split.
  - intros Hn. unfold create_product. by rewrite Hn.
  - intros Hn. rewrite (create_product_store _ _ _ _ _ _ Hn).
    eexists. split; [done|]. simpl. repeat split; try done.
    + unfold truthy in Hn. by destruct (c_name data).
    + intros j p Hf. unfold find_product. simpl. by apply find_app_some.
    + intros Hf. unfold find_product in *. simpl. rewrite (find_app_none _ _ _ Hf). simpl.
      by rewrite bool_decide_eq_true_2.
Qed.

(** X11. A product that has just been created can be handed over at once:
    after [create_product] under an id that was not in use, the creator's
    request, as manufacturer, to set [ReadyForShipping] with a stored
    distributor as target is accepted, and the product is then held by that
    distributor and still owned by the creator. *)
Theorem created_then_handed_over actor (data : CreateData) id ts (db : Db) bc bc1 t u slat slon :
  truthy (c_name data) = true →
  id ≠ "" →
  find_product id db = None →
  t ≠ "" →
  find_user t db = Some u →
  user_role u = "distributor" →
  let db1 := (create_product py_str add_block actor data id ts db bc).1.2 in
  let request := mkUpdateData (Some id) (Some "ReadyForShipping") (Some t) slat slon in
  accepted (explicit_custody_transfer py_str add_block actor "manufacturer" request db1 bc1).1.1 ∧
  ∃ p, find_product id
         (explicit_custody_transfer py_str add_block actor "manufacturer" request db1 bc1).1.2 =
         Some p ∧
       custodian p = t ∧ owner p = actor ∧ current_status p = "ReadyForShipping".
Proof.
  intros Hn Hid Hfresh Ht Hu Hrole db1 request.
  set (product := mkProduct id (default "" (c_name data)) actor actor
                            (default "" (c_description data)) "Created").
  assert (find_product id db1 = Some product) as Hf.
  { unfold db1. rewrite (create_product_store _ _ _ _ _ _ Hn).
    unfold find_product in *. simpl. rewrite (find_app_none _ _ _ Hfresh). simpl.
    by rewrite bool_decide_eq_true_2. }
  assert (find_user t db1 = Some u) as Hu1.
  { unfold db1. by rewrite (create_product_store _ _ _ _ _ _ Hn). }
  assert (transfer_checks (Block:=Block) actor "manufacturer" request db1 =
          inr (id, "ReadyForShipping", product, username u)) as Hc.
  { apply validation_accept. split; [done|]. split; [by exists id|]. split; [done|]. split.
    - split; [by left|]. split; [is_allowed|]. split; [exists 0, 1; repeat split; lia|done].
    - right. exists "distributor", t, u. repeat split; try done. by left. }
  rewrite (transfer_of_accept _ _ _ _ _ _ _ _ _ Hc). simpl. split.
  - unfold accepted. eauto.
  - exists (moved product (username u) "ReadyForShipping").
    split; [by apply commit_lookup|]. simpl. split; [|done]. by apply find_user_name in Hu.
Qed.

(** ** A ledger that fails under [create_product] and [delete_product] *)

(** X12. Only the transition view catches a failing [add_block].  In
    [create_product] and in [delete_product] the exception leaves the view,
    after the commit: the new product is in the store, respectively the
    product is gone from it, and the caller gets the exception. *)
Theorem ledger_failure_escapes :
  (∀ actor (data : CreateData) id ts (db : Db) bc bc' exn,
     truthy (c_name data) = true →
     add_block bc (create_event py_str id actor (c_latitude data) (c_longitude data)) =
       Raised bc' exn →
     ∃ db', create_product py_str add_block actor data id ts db bc = (Unhandled exn, db', bc') ∧
            length (products db') = S (length (products db)) ∧
            is_Some (find_product id db')) ∧
  (∀ actor id (db : Db) bc bc' exn p,
     find_product id db = Some p →
     NoDup (product_id <$> products db) →
     add_block bc (delete_event id actor) = Raised bc' exn →
     ∃ db', delete_product add_block actor id db bc = (Unhandled exn, db', bc') ∧
            find_product id db' = None).
Proof.
  split.
  - intros actor data id ts db bc bc' exn Hn Hadd.
    unfold create_product. rewrite Hn, Hadd. simpl. eexists. split; [done|]. simpl.
    split; [rewrite length_app; simpl; lia|].
    unfold find_product. simpl.
    destruct (find (λ p, bool_decide (product_id p = id)) (products db)) as [p|] eqn:Hf.
    + rewrite (find_app_some _ _ _ _ Hf). by eexists.
    + rewrite (find_app_none _ _ _ Hf). simpl. rewrite bool_decide_eq_true_2 by done.
      by eexists.
  - intros actor id db bc bc' exn p Hf Hnd Hadd.
    unfold delete_product. rewrite Hf, Hadd. eexists. split; [done|].
    unfold find_product. simpl. by apply find_delete_same.
Qed.

(** ** [delete_product] *)

(** X13. [delete_product] answers 404 for an id that is not stored and writes
    nothing.  For a stored product, ids being unique, it removes the product
    and every [History] row of it and nothing else: the other products are
    looked up as before, the [History] rows of other products stay, the event
    goes to the ledger, and a later transition request for the id is answered
    with product-not-found. *)
Theorem delete_product_removes actor id (db : Db) bc :
  (find_product id db = None →
   delete_product add_block actor id db bc = (error "product not found" 404, db, bc)) ∧
  (∀ p, find_product id db = Some p →
        NoDup (product_id <$> products db) →
        let db' := (delete_product add_block actor id db bc).1.2 in
        find_product id db' = None ∧
        (∀ j, j ≠ id → find_product j db' = find_product j db) ∧
        (∀ h, h ∈ history db' ↔ h ∈ history db ∧ h_product_id h ≠ id) ∧
        users db' = users db ∧
        (delete_product add_block actor id db bc).2 =
          ledger_after (add_block bc (delete_event id actor)) ∧
        (∀ actor' role (data : UpdateData) bc1 s,
           pid data = Some id → id ≠ "" → requests_status data s →
           explicit_custody_transfer py_str add_block actor' role data db' bc1 =
           (ProductNotFound, db', bc1))).
Proof.
  split.
  - intros Hf. unfold delete_product. by rewrite Hf.
  - intros p Hf Hnd db'.
    assert (db' = mkDb (delete_row id (products db)) (users db)
                       (filter (λ h, h_product_id h ≠ id) (history db))) as Hdb.
    { unfold db', delete_product. rewrite Hf. by destruct (add_block _ _). }
    assert (find_product id db' = None) as Hgone.
    { rewrite Hdb. unfold find_product. simpl. by apply find_delete_same. }
    split; [done|]. split; [|split; [|split; [|split]]].
    + intros j Hne. rewrite Hdb. unfold find_product. simpl. by apply find_delete_other.
    + intros h. rewrite Hdb. simpl. rewrite list_elem_of_filter. tauto.
    + by rewrite Hdb.
    + unfold delete_product. rewrite Hf. by destruct (add_block _ _).
    + intros actor' role data bc1 s Hi Hi0 [Hs Hs0].
      apply transfer_of_reject. unfold transfer_checks, truthy. rewrite Hi, Hs. simpl.
      rewrite (bool_decide_eq_false_2 _ Hi0), (bool_decide_eq_false_2 _ Hs0). simpl.
      by rewrite Hgone.
Qed.

(** ** The reading views *)

Context {BlockDict : Type}.
Context (chain : Blockchain → list Block).
Context (data : Block → BlockData).
Context (to_dict : Block → BlockDict).
Context (dict_data : BlockDict → BlockData).
Context (is_valid_chain : option (Blockchain → bool * string)).
Context (py_int : string → option Z).
Context (created_between : string → string → Product → bool).
Context (has_attribute : string → bool).
Context (order_by : string → bool → list Product → list Product).
Context (paginate : Z → Z → list Product → list Product).
Context (ilike : string → string → bool).

#[local] Abbreviation ViewResponse := (@ViewResponse BlockDict).

(** X14. [get_product] returns what the last write left: after an accepted
    transition it answers with the very product of the transition's answer;
    after [create_product] under an id that was not in use, with the product
    of the creation's answer; after [delete_product], ids being unique, with
    404. *)
Theorem get_product_after_write :
  (∀ actor role (data : UpdateData) (db : Db) bc p' block db' bc' i,
     explicit_custody_transfer py_str add_block actor role data db bc =
       (Json (UpdateBody p' block) 200, db', bc') →
     pid data = Some i →
     get_product i db' = (ViewJson (ProductView p') 200 : ViewResponse)) ∧
  (∀ actor (data : CreateData) id ts (db : Db) bc product block db' bc',
     create_product py_str add_block actor data id ts db bc =
       (Json (CreateBody product block) 201, db', bc') →
     find_product id db = None →
     get_product id db' = (ViewJson (ProductView product) 200 : ViewResponse)) ∧
  (∀ actor id (db : Db) bc p,
     find_product id db = Some p →
     NoDup (product_id <$> products db) →
     get_product id (delete_product add_block actor id db bc).1.2 =
       (ViewJson (ErrorView "not found") 404 : ViewResponse)).
Proof.
  split; [|split].
  - intros actor role data0 db bc p' block db' bc' i H Hi.
    assert (accepted (Block:=Block) (Json (UpdateBody p' block) 200)) as Hacc
      by (unfold accepted; eauto).
    destruct (accepted_inv _ _ _ _ _ _ _ _ H Hacc) as (j & s & p & nc & Hc & Hr & -> & _).
    injection Hr as -> _.
    apply checks_accept in Hc as (Hj & _ & _ & _ & Hf & _).
    rewrite Hi in Hj. injection Hj as <-.
    unfold get_product. by rewrite (commit_lookup _ _ _ _ _ _ _ _ Hf).
  - intros actor data0 id ts db bc product block db' bc' H Hfresh.
    unfold create_product in H. destruct (negb _); [done|].
    destruct (add_block _ _); [|done]. injection H as <- _ <- _.
    unfold get_product, find_product in *. simpl. rewrite (find_app_none _ _ _ Hfresh). simpl.
    by rewrite bool_decide_eq_true_2.
  - intros actor id db bc p Hf Hnd. unfold delete_product. rewrite Hf.
    destruct (add_block _ _); simpl; unfold get_product, find_product; simpl;
      by rewrite find_delete_same.
Qed.

(** ** The views on the ledger *)

Lemma product_blocks_raise j l :
  product_blocks data to_dict j l = None ↔ ∃ b, b ∈ l ∧ data b = OtherData.
Proof.
  induction l as [|b l IH]; simpl.
  - split; [done|]. intros (b & Hb & _). by apply elem_of_nil in Hb.
  - destruct (data b) as [d|] eqn:Hd.
    + destruct (product_blocks data to_dict j l) as [rest|].
      * split; [done|]. intros (b' & [->|Hb']%elem_of_cons & Hd'); [congruence|].
        assert (∃ b0, b0 ∈ l ∧ data b0 = OtherData) as Hex by eauto.
        by apply IH in Hex.
      * split; [|done]. intros _. destruct IH as [IH _].
        destruct (IH eq_refl) as (b' & Hb' & Hd'). exists b'. split; [by right|done].
    + split; [|done]. intros _. exists b. split; [by left|done].
Qed.

Lemma product_blocks_listing j l :
  (∀ b, b ∈ l → data b ≠ OtherData) →
  product_blocks data to_dict j l = Some (product_history_blocks data to_dict j l).
Proof.
  unfold product_history_blocks. induction l as [|b l IH]; intros Hall; simpl; [done|].
  assert (data b ≠ OtherData) as Hb by (apply Hall; by left).
  destruct (data b) as [d|]; [|done].
  rewrite IH by (intros b' Hb'; apply Hall; by right).
  by destruct (bool_decide _).
Qed.

(** X15. [get_product_blockchain] calls [get] on the data of every block of
    the chain: it raises, whatever the product, exactly when some block holds
    data that is no dict.  [get_product_history_from_blockchain] tests for a
    dict first, so that no block makes it raise; when every block holds a
    dict the two views select the same blocks. *)
Theorem product_blockchain_raises_iff :
  (∀ product_id bc exn,
     get_product_blockchain chain data to_dict product_id bc = ViewRaises exn ↔
     exn = "AttributeError" ∧ ∃ b, b ∈ chain bc ∧ data b = OtherData) ∧
  (∀ product_id (db : Db) bc exn,
     get_product_history_from_blockchain chain data to_dict dict_data is_valid_chain
       product_id db bc ≠ ViewRaises exn) ∧
  (∀ product_id bc,
     (∀ b, b ∈ chain bc → data b ≠ OtherData) →
     get_product_blockchain chain data to_dict product_id bc =
     ViewJson (ChainView (product_history_blocks data to_dict product_id (chain bc))) 200).
Proof.
  split; [|split].
  - intros j bc exn. unfold get_product_blockchain.
    destruct (product_blocks data to_dict j (chain bc)) as [l|] eqn:Hl.
    + split; [done|]. intros (_ & Hex). apply (product_blocks_raise j) in Hex. congruence.
    + apply product_blocks_raise in Hl. split.
      * by intros [= <-].
      * by intros [-> _].
  - intros j db bc exn. unfold get_product_history_from_blockchain.
    destruct (find_product j db); [|done].
    by destruct (match is_valid_chain with Some f => f bc | None => _ end).
  - intros j bc Hall. unfold get_product_blockchain. by rewrite product_blocks_listing.
Qed.

Lemma history_blocks_app j l b :
  product_history_blocks data to_dict j (l ++ [b]) =
  (product_history_blocks data to_dict j l ++
   match data b with
   | DictData d => if bool_decide (d !! "product_id" = Some j) then [to_dict b] else []
   | OtherData => []
   end)%list.
Proof.
  unfold product_history_blocks. rewrite List.filter_app, fmap_app. f_equal. simpl.
  destruct (data b) as [d|]; [|done]. by destruct (bool_decide _).
Qed.

(** X16. On a ledger that appends the blocks it returns and whose blocks give
    back their payload, every accepted transition that got its block shows in
    the verified history of the product: the timeline served after it is the
    timeline served before it followed by the event of the transition, which
    carries the status and the custodian the product now has; the blocks
    selected for any other product are the same as before. *)
Theorem timeline_follows_transition actor role (req : UpdateData) (db : Db) bc p' b db' bc' i :
  appends_blocks add_block chain data →
  dicts_keep_data data to_dict dict_data →
  explicit_custody_transfer py_str add_block actor role req db bc =
    (Json (UpdateBody p' (Some b)) 200, db', bc') →
  pid req = Some i →
  ∃ event,
    data b = DictData event ∧
    event !! "status" = Some (current_status p') ∧
    event !! "new_custodian" = Some (custodian p') ∧
    (∀ p tl v m,
       get_product_history_from_blockchain chain data to_dict dict_data is_valid_chain i db bc =
         ViewJson (HistoryView p tl v m) 200 →
       ∃ v' m',
         get_product_history_from_blockchain chain data to_dict dict_data is_valid_chain i db' bc' =
           ViewJson (HistoryView p' (tl ++ [DictData event]) v' m') 200) ∧
    (∀ j, j ≠ i →
          product_history_blocks data to_dict j (chain bc') =
          product_history_blocks data to_dict j (chain bc)).
Proof.
  intros Hadd Hdict H Hi.
  assert (accepted (Block:=Block) (Json (UpdateBody p' (Some b)) 200)) as Hacc
    by (unfold accepted; eauto).
  destruct (accepted_inv _ _ _ _ _ _ _ _ H Hacc) as (j & s & p & nc & Hc & Hr & -> & ->).
  injection Hr as -> Hb.
  apply checks_accept in Hc as (Hj & _ & _ & _ & Hf & _).
  rewrite Hi in Hj. injection Hj as <-.
  set (event := transfer_event py_str i s actor nc (lat req) (lon req)) in *.
  destruct (add_block bc event) as [bc1 b1|bc1 e] eqn:Hev; [|done].
  simpl in Hb. injection Hb as ->. simpl.
  destruct (Hadd _ _ _ _ Hev) as [Hchain Hdata].
  assert (event !! "product_id" = Some i) as Hpid.
  { unfold event, transfer_event. rewrite lookup_insert_ne by discriminate.
    apply lookup_insert_eq. }
  exists event. split; [done|]. split; [|split; [|split]].
  - unfold event, transfer_event. rewrite !lookup_insert_ne by discriminate.
    apply lookup_insert_eq.
  - unfold event, transfer_event. rewrite !lookup_insert_ne by discriminate.
    apply lookup_insert_eq.
  - intros q tl v m. unfold get_product_history_from_blockchain.
    rewrite Hf, (commit_lookup _ _ _ _ _ _ _ _ Hf).
    destruct (match is_valid_chain with Some f => f bc | None => _ end) as [v0 m0].
    intros [= <- <- <- <-].
    destruct (match is_valid_chain with Some f => f bc1 | None => _ end) as [v1 m1].
    exists v1, m1. do 2 f_equal.
    rewrite Hchain, history_blocks_app, Hdata, (bool_decide_eq_true_2 _ Hpid), fmap_app.
    simpl. by rewrite Hdict, Hdata.
  - intros j Hne. rewrite Hchain, history_blocks_app, Hdata, bool_decide_eq_false_2.
    + by rewrite app_nil_r.
    + rewrite Hpid. congruence.
Qed.

Lemma product_blocks_app j l b d rest :
  product_blocks data to_dict j l = Some rest →
  data b = DictData d →
  d !! "product_id" = Some j →
  product_blocks data to_dict j (l ++ [b]) = Some (rest ++ [to_dict b])%list.
Proof.
  intros Hl Hd Hj. revert rest Hl. induction l as [|x l IH]; intros rest Hl; simpl in *.
  - injection Hl as <-. by rewrite Hd, (bool_decide_eq_true_2 _ Hj).
  - destruct (data x) as [dx|]; [|done].
    destruct (product_blocks data to_dict j l) as [r|]; [|done].
    rewrite (IH r eq_refl). injection Hl as <-. by destruct (bool_decide _).
Qed.

(** X17. The ledger outlives the product.  After [delete_product] has got
    its block from a ledger that appends what it returns, the verified
    history of the product answers 404, ids being unique, while the chain
    still has every block it had: [get_blockchain] and
    [get_product_blockchain] for that id answer what they answered before,
    followed by the block of the deletion. *)
Theorem ledger_outlives_product actor id (db : Db) bc p b db' bc' :
  appends_blocks add_block chain data →
  find_product id db = Some p →
  NoDup (product_id <$> products db) →
  delete_product add_block actor id db bc = (Json (DeleteBody id (Some b)) 200, db', bc') →
  get_product_history_from_blockchain chain data to_dict dict_data is_valid_chain id db' bc' =
    ViewJson (ErrorView "Product not found") 404 ∧
  (∀ l, get_blockchain chain to_dict bc = ViewJson (ChainView l) 200 →
        get_blockchain chain to_dict bc' = ViewJson (ChainView (l ++ [to_dict b])) 200) ∧
  (∀ l, get_product_blockchain chain data to_dict id bc = ViewJson (ChainView l) 200 →
        get_product_blockchain chain data to_dict id bc' =
        ViewJson (ChainView (l ++ [to_dict b])) 200).
Proof.
  intros Hadd Hf Hnd H. unfold delete_product in H. rewrite Hf in H.
  destruct (add_block bc (delete_event id actor)) as [bc1 b1|bc1 e] eqn:Hev; [|done].
  injection H as <- <- <-.
  destruct (Hadd _ _ _ _ Hev) as [Hchain Hdata].
  split; [|split].
  - unfold get_product_history_from_blockchain, find_product. simpl.
    by rewrite find_delete_same.
  - intros l. unfold get_blockchain. intros [= <-]. by rewrite Hchain, fmap_app.
  - intros l. unfold get_product_blockchain.
    destruct (product_blocks data to_dict id (chain bc)) as [rest|] eqn:Hl; [|done].
    intros [= <-]. rewrite Hchain.
    rewrite (product_blocks_app _ _ _ _ _ Hl Hdata); [done|].
    unfold delete_event. rewrite lookup_insert_ne by discriminate. apply lookup_insert_eq.
Qed.

(** ** [list_products] and [search_products] *)

Lemma list_query_elem username role (args : ListArgs) (db : Db) p :
  p ∈ list_query created_between username role args db →
  p ∈ products db ∧
  (role ≠ "super_admin" → custodian p = username ∨ owner p = username) ∧
  (∀ s, arg_status args = Some s → s ≠ "" → current_status p = s) ∧
  (∀ o, arg_owner args = Some o → o ≠ "" → owner p = o).
Proof.
  unfold list_query. intros H.
  assert (p ∈ (let query := products db in
               let query := if bool_decide (role ≠ "super_admin")
                            then filter (λ p, custodian p = username ∨ owner p = username) query
                            else query in
               let query := if truthy (arg_status args)
                            then filter (λ p, current_status p = default "" (arg_status args)) query
                            else query in
               if truthy (arg_owner args)
               then filter (λ p, owner p = default "" (arg_owner args)) query else query)) as H'.
  { destruct (truthy (arg_from args) && truthy (arg_to args)); [|done].
    apply list_elem_of_In, filter_In in H as [H _]. by apply list_elem_of_In. }
  clear H. simpl in H'.
  assert (p ∈ (if truthy (arg_status args)
               then filter (λ p, current_status p = default "" (arg_status args))
                      (if bool_decide (role ≠ "super_admin")
                       then filter (λ p, custodian p = username ∨ owner p = username) (products db)
                       else products db)
               else if bool_decide (role ≠ "super_admin")
                    then filter (λ p, custodian p = username ∨ owner p = username) (products db)
                    else products db) ∧
          (∀ o, arg_owner args = Some o → o ≠ "" → owner p = o)) as [H Ho].
  { destruct (truthy (arg_owner args)) eqn:Ht.
    - apply list_elem_of_filter in H' as [Ho H']. split; [done|].
      intros o Hao _. by rewrite Hao in Ho.
    - split; [done|]. intros o Hao Ho0. unfold truthy in Ht. rewrite Hao in Ht.
      by rewrite (bool_decide_eq_false_2 _ Ho0) in Ht. }
  clear H'.
  assert (p ∈ (if bool_decide (role ≠ "super_admin")
               then filter (λ p, custodian p = username ∨ owner p = username) (products db)
               else products db) ∧
          (∀ s, arg_status args = Some s → s ≠ "" → current_status p = s)) as [H' Hs].
  { destruct (truthy (arg_status args)) eqn:Ht.
    - apply list_elem_of_filter in H as [Hs H]. split; [done|].
      intros s Has _. by rewrite Has in Hs.
    - split; [done|]. intros s Has Hs0. unfold truthy in Ht. rewrite Has in Ht.
      by rewrite (bool_decide_eq_false_2 _ Hs0) in Ht. }
  clear H. case_bool_decide as Hr.
  - apply list_elem_of_filter in H' as [Hv H']. done.
  - done.
Qed.

Lemma list_query_length username role (args : ListArgs) (db : Db) :
  (length (list_query created_between username role args db) ≤ length (products db))%nat.
Proof.
  unfold list_query. simpl.
  assert (∀ (P : Product → Prop) `{∀ x, Decision (P x)} (b : bool) (l : list Product),
            (length (if b then filter P l else l) ≤ length l)%nat) as Hf.
  { intros P ? b l. destruct b; [apply length_filter|done]. }
  destruct (truthy (arg_from args) && truthy (arg_to args)).
  - etrans; [apply filter_length_le|]. etrans; [apply Hf|]. etrans; [apply Hf|]. apply Hf.
  - etrans; [apply Hf|]. etrans; [apply Hf|]. apply Hf.
Qed.

Lemma list_products_rows username role (args : ListArgs) (db : Db) page per_page total ps :
  (∀ f d l, order_by f d l ⊆ l) →
  (∀ pg pp l, paginate pg pp l ⊆ l) →
  list_products py_int created_between has_attribute order_by paginate username role args db =
    (ViewJson (ListView page per_page total ps) 200 : ViewResponse) →
  total = length (list_query created_between username role args db) ∧
  ps ⊆ list_query created_between username role args db.
Proof.
  intros Hord Hpag. unfold list_products.
  destruct (match arg_page args with Some s => py_int s | None => Some 1%Z end) as [pg|]; [|done].
  destruct (match arg_per_page args with Some s => py_int s | None => Some 10%Z end) as [pp|];
    [|done].
  destruct (if contains ":" (default "created_at:desc" (arg_sort args)) then _ else _)
    as [[field direction]|]; [|done].
  intros [= <- <- <- <-]. split; [done|].
  etrans; [apply Hpag|]. destruct (has_attribute field); [apply Hord|done].
Qed.

(** X18. What [list_products] shows, for a database whose ordering and paging
    return rows of the query: the total is the number of rows of the filtered
    query; every product listed is stored; a caller whose role is not
    [super_admin] is only shown products they hold or own; and with a status
    or an owner filter only products with that status or owner are shown. *)
Theorem list_products_shows_own username role (args : ListArgs) (db : Db)
    page per_page total ps :
  (∀ f d l, order_by f d l ⊆ l) →
  (∀ pg pp l, paginate pg pp l ⊆ l) →
  list_products py_int created_between has_attribute order_by paginate username role args db =
    (ViewJson (ListView page per_page total ps) 200 : ViewResponse) →
  total = length (list_query created_between username role args db) ∧
  (total ≤ length (products db))%nat ∧
  ∀ p, p ∈ ps →
       p ∈ products db ∧
       (role ≠ "super_admin" → custodian p = username ∨ owner p = username) ∧
       (∀ s, arg_status args = Some s → s ≠ "" → current_status p = s) ∧
       (∀ o, arg_owner args = Some o → o ≠ "" → owner p = o).
Proof.
  intros Hord Hpag H.
  destruct (list_products_rows _ _ _ _ _ _ _ _ Hord Hpag H) as [-> Hsub].
  split; [done|]. split; [apply list_query_length|].
  intros p Hp. by apply (list_query_elem username role args db), Hsub.
Qed.




(** What [search_products] returns. *)
Lemma search_products_elem (args : SearchArgs) (db : Db) :
  ∃ ps, search_products ilike args db = (ViewJson (SearchView ps) 200 : ViewResponse) ∧
        ∀ p, p ∈ ps ↔
             p ∈ products db ∧
             (ilike (name p) ("%" +:+ default "" (arg_query args) +:+ "%") = true ∨
              ilike (description p) ("%" +:+ default "" (arg_query args) +:+ "%") = true) ∧
             (truthy (search_status args) = true →
              Some (current_status p) = search_status args) ∧
             (truthy (search_owner args) = true → Some (owner p) = search_owner args).
Proof.
  unfold search_products. eexists. split; [done|]. intros p.
  set (hits := List.filter _ (products db)).
  assert (p ∈ hits ↔
          p ∈ products db ∧
          (ilike (name p) ("%" +:+ default "" (arg_query args) +:+ "%") = true ∨
           ilike (description p) ("%" +:+ default "" (arg_query args) +:+ "%") = true)) as Hhits.
  { unfold hits. rewrite list_elem_of_In, filter_In, <- list_elem_of_In, orb_true_iff. done. }
  destruct (truthy (search_status args)) eqn:Hts, (truthy (search_owner args)) eqn:Hto;
    rewrite ?list_elem_of_filter, Hhits.
  - destruct (search_status args) as [s|], (search_owner args) as [o|]; try done. simpl.
    split; [intros (-> & -> & ? & ?)|intros (? & ? & Hs & Ho)]; repeat split; try done.
    + by injection (Ho eq_refl).
    + by injection (Hs eq_refl).
  - destruct (search_status args) as [s|]; try done. simpl.
    split; [intros (-> & ? & ?)|intros (? & ? & Hs & Ho)]; repeat split; try done.
    by injection (Hs eq_refl).
  - destruct (search_owner args) as [o|]; try done. simpl.
    split; [intros (-> & ? & ?)|intros (? & ? & Hs & Ho)]; repeat split; try done.
    by injection (Ho eq_refl).
  - split; [intros (? & ?)|intros (? & ? & _)]; repeat split; done.
Qed.

(** X20. [search_products] does not look at who asks.  A stored product is
    returned exactly when its name or its description matches the pattern
    made of the query between two [%] and it passes the status and owner
    filters that were given; so it is returned also to a caller who neither
    holds nor owns it, to whom [list_products] never shows it. *)
Theorem search_ignores_the_caller (args : SearchArgs) (db : Db) :
  ∃ ps, search_products ilike args db = (ViewJson (SearchView ps) 200 : ViewResponse) ∧
        (∀ p, p ∈ ps ↔
              p ∈ products db ∧
              (ilike (name p) ("%" +:+ default "" (arg_query args) +:+ "%") = true ∨
               ilike (description p) ("%" +:+ default "" (arg_query args) +:+ "%") = true) ∧
              (truthy (search_status args) = true →
               Some (current_status p) = search_status args) ∧
              (truthy (search_owner args) = true → Some (owner p) = search_owner args)) ∧
        (∀ p username role (largs : ListArgs) page per_page total shown,
           (∀ f d l, order_by f d l ⊆ l) →
           (∀ pg pp l, paginate pg pp l ⊆ l) →
           p ∈ ps →
           role ≠ "super_admin" → custodian p ≠ username → owner p ≠ username →
           list_products py_int created_between has_attribute order_by paginate
             username role largs db =
             (ViewJson (ListView page per_page total shown) 200 : ViewResponse) →
           p ∉ shown).
Proof.
  destruct (search_products_elem args db) as (ps & Hps & Helem).
  exists ps. split; [done|]. split; [done|].
  intros p username role largs page per_page total shown Hord Hpag _ Hr Hc Ho H Hin.
  destruct (list_products_rows _ _ _ _ _ _ _ _ Hord Hpag H) as [_ Hsub].
  apply Hsub, (list_query_elem username role largs db) in Hin as (_ & Hv & _).
  destruct (Hv Hr); done.
Qed.

(** ** The public URLs *)

Lemma rstrip_app_char c s : rstrip c (s +:+ String c "") = rstrip c s.
Proof.
  induction s as [|a s IH]; simpl.
  - by rewrite bool_decide_eq_true_2.
  - by rewrite IH.
Qed.

Lemma rstrip_no_trailing c s x : rstrip c s ≠ x +:+ String c "".
Proof.
  revert x. induction s as [|a s IH]; intros x; simpl.
  - by destruct x.
  - destruct (rstrip c s) as [|b r] eqn:Hr.
    + case_bool_decide as Ha; [by destruct x|].
      destruct x as [|a' x]; simpl; [by intros [= ?]|]. intros [= _ Hx]. by destruct x.
    + destruct x as [|a' x]; simpl; [done|]. intros [= _ Hx]. by apply (IH x).
Qed.

(** X21. The QR code of a product always holds its public verification URL:
    [get_product_qrcode] answers 404 for an id that is not stored, and for a
    stored one encodes the text that [create_product] put in the QR code at
    creation and reported as [public_verify_url], under the same
    configuration and request headers. *)
Theorem qr_code_is_the_verify_url config request product_id (db : Db) :
  (find_product product_id db = None →
   get_product_qrcode config request product_id db =
   (ViewJson (ErrorView "product not found") 404 : ViewResponse)) ∧
  (is_Some (find_product product_id db) →
   get_product_qrcode config request product_id db =
   (ViewJson (QrCodeView (qr_data (create_product_urls config request product_id))) 200
      : ViewResponse)) ∧
  qr_data (create_product_urls config request product_id) =
    public_verify_url (create_product_urls config request product_id).
Proof.
  unfold get_product_qrcode. split; [by intros ->|]. split; [|done].
  by intros [p ->].
Qed.

(** The URLs depend on the configuration through its truthy entries only. *)
Lemma urls_of_truthy_entries config config' request pid :
  (if truthy (FRONTEND_PUBLIC_BASE_URL config) then FRONTEND_PUBLIC_BASE_URL config else None) =
  (if truthy (FRONTEND_PUBLIC_BASE_URL config') then FRONTEND_PUBLIC_BASE_URL config' else None) →
  (if truthy (BACKEND_PUBLIC_BASE_URL config) then BACKEND_PUBLIC_BASE_URL config else None) =
  (if truthy (BACKEND_PUBLIC_BASE_URL config') then BACKEND_PUBLIC_BASE_URL config' else None) →
  create_product_urls config request pid = create_product_urls config' request pid.
Proof.
  unfold create_product_urls. intros Hf Hb.
  destruct (truthy (FRONTEND_PUBLIC_BASE_URL config)) eqn:H1,
           (truthy (FRONTEND_PUBLIC_BASE_URL config')) eqn:H2,
           (truthy (BACKEND_PUBLIC_BASE_URL config)) eqn:H3,
           (truthy (BACKEND_PUBLIC_BASE_URL config')) eqn:H4;
    simpl; rewrite ?Hf, ?Hb; try done;
    try (rewrite <- Hf in H2; discriminate H2);
    try (rewrite Hf in H1; discriminate H1);
    try (rewrite <- Hb in H4; discriminate H4);
    try (rewrite Hb in H3; discriminate H3).
Qed.

Lemma truthy_entry_slash s :
  (if truthy (Some (rstrip "/" (s +:+ "/"))) then Some (rstrip "/" (s +:+ "/")) else None) =
  (if truthy (if truthy (Some s) then Some (rstrip "/" s) else None)
   then (if truthy (Some s) then Some (rstrip "/" s) else None) else None).
Proof.
  rewrite rstrip_app_char. destruct (truthy (Some s)) eqn:Hs; [done|].
  unfold truthy in Hs. apply negb_false_iff, bool_decide_eq_true in Hs. by subst s.
Qed.

(** X22. [create_app] makes the public URLs insensitive to trailing slashes
    of the configured base URLs: one more slash at the end of the frontend or
    of the backend base changes none of the URLs of a product, and a
    frontend base that the configuration holds never ends with a slash, so
    the verification URL has a single slash before [verify]. *)
Theorem trailing_slashes_dropped :
  (∀ s backend request pid,
     create_product_urls (create_app (Some (s +:+ "/")) backend) request pid =
     create_product_urls (create_app (Some s) backend) request pid) ∧
  (∀ s frontend request pid,
     create_product_urls (create_app frontend (Some (s +:+ "/"))) request pid =
     create_product_urls (create_app frontend (Some s)) request pid) ∧
  (∀ frontend backend base x,
     FRONTEND_PUBLIC_BASE_URL (create_app frontend backend) = Some base →
     base ≠ x +:+ "/").
Proof.
  assert (∀ s, truthy (Some (s +:+ "/")) = true) as Htr.
  { intros s. unfold truthy. rewrite bool_decide_eq_false_2; [done|]. by destruct s. }
  split; [|split].
  - intros s backend request pid. apply urls_of_truthy_entries; [|done].
    unfold create_app. rewrite Htr. simpl. apply truthy_entry_slash.
  - intros s frontend request pid. apply urls_of_truthy_entries; [done|].
    unfold create_app. rewrite Htr. simpl. apply truthy_entry_slash.
  - intros frontend backend base x. unfold create_app. simpl.
    destruct (truthy frontend); [|done]. intros [= <-]. apply rstrip_no_trailing.
Qed.

End Properties.

(** * The properties at work on the small world *)

(** ** The scenarios of the specification *)

(** A: alice creates a product; it is [Created], owned and held by alice, and
    the chain grows from the genesis block to length 2. *)
Example scenario_A :
  create_product id counting_add "alice" (mkCreateData (Some "Widget") (Some "a widget") None None)
    "P1" 7 (mkDb [] demo_users []) 1 =
  (Json (CreateBody (widget "alice" "Created") 1) 201,
   mkDb [widget "alice" "Created"] demo_users [mkHistory "P1" "Created" "alice" (Some 7) None None],
   2).
Proof. reflexivity. Qed.

(** B: alice hands the product to bob. *)
Example scenario_B :
  demo_transfer "alice" "manufacturer" (ask "ReadyForShipping" (Some "bob"))
    (demo_db "alice" "Created") 2 =
  (Json (UpdateBody (widget "bob" "ReadyForShipping") (Some 2)) 200,
   mkDb [widget "bob" "ReadyForShipping"] demo_users
        [mkHistory "P1" "ReadyForShipping" "alice" None None None],
   3) ∧
  transfer_event id "P1" "ReadyForShipping" "alice" "bob" None None !! "type" =
    Some "custody_transfer".
Proof. split; vm_compute; reflexivity. Qed.

(** C: carol, who does not hold the product, is refused. *)
Example scenario_C :
  demo_transfer "carol" "distributor" (ask "InTransit" None) (demo_db "bob" "ReadyForShipping") 3 =
  (WrongCustodian (widget "bob" "ReadyForShipping"), demo_db "bob" "ReadyForShipping", 3).
Proof. vm_compute. reflexivity. Qed.

(** D: bob skips [Shipped]. *)
Example scenario_D :
  demo_transfer "bob" "distributor" (ask "InTransit" None) (demo_db "bob" "ReadyForShipping") 3 =
  (InvalidSequence "InTransit" "Shipped", demo_db "bob" "ReadyForShipping", 3).
Proof. vm_compute. reflexivity. Qed.

(** ** C1 *)

(** C1 as stated fails: bob, distributor and custodian of a product that is
    already [Shipped], asks for [Created] (index 0, not later than 2); the
    answer is that of the role guard, not the invalid-transition one. *)
Lemma backward_request_stopped_by_role_guard :
  names_product (ask "Created" None) (demo_db "bob" "Shipped") (widget "bob" "Shipped") ∧
  status_index "Created" = Some 0 ∧
  status_index (current_status (widget "bob" "Shipped")) = Some 2 ∧
  (demo_transfer "bob" "distributor" (ask "Created" None) (demo_db "bob" "Shipped") 1).1.1 =
    RoleNotPermitted "distributor" "Created" ∧
  (demo_transfer "bob" "distributor" (ask "Created" None) (demo_db "bob" "Shipped") 1).1.1 ≠
    InvalidTransition (widget "bob" "Shipped") "Created".
Proof.
  split; [|split; [|split; [|split]]].
  - names_widget.
  - reflexivity.
  - reflexivity.
  - vm_compute. reflexivity.
  - vm_compute. discriminate.
Qed.

Lemma monotone_status_witness :
  (∃ s p', requests_status (ask "InTransit" None) s ∧ status_lt "Shipped" s ∧
           names_product (ask "InTransit" None)
             (demo_transfer "bob" "distributor" (ask "InTransit" None) (demo_db "bob" "Shipped") 1).1.2 p' ∧
           current_status p' = s) ∧
  (∃ resp, demo_transfer "bob" "distributor" (ask "Shipped" None) (demo_db "bob" "InTransit") 1 =
             (resp, demo_db "bob" "InTransit", 1) ∧
           rejected resp ∧
           (resp = WrongCustodian (widget "bob" "InTransit") ∨
            resp = RoleNotPermitted "distributor" "Shipped" ∨
            resp = InvalidTransition (widget "bob" "InTransit") "Shipped") ∧
           (custodian (widget "bob" "InTransit") = "bob" →
            "Shipped" ∈ default [] (ROLE_ALLOWED !! "distributor") →
            resp = InvalidTransition (widget "bob" "InTransit") "Shipped")) ∧
  (∃ p', find_product "P1"
           (run id counting_add
              [ExplicitCustodyTransfer "bob" "distributor" (ask "Shipped" None);
               ExplicitCustodyTransfer "bob" "distributor" (ask "Created" None);
               ExplicitCustodyTransfer "bob" "distributor" (ask "InTransit" None)]
              (demo_db "bob" "ReadyForShipping") 1).1 = Some p' ∧
         (current_status p' = "ReadyForShipping" ∨ status_lt "ReadyForShipping" (current_status p'))).
Proof.
  destruct (@monotone_status string id nat nat nat counting_add)
    as (A & B & C).
  split; [|split].
  - eapply (A "bob" "distributor" (ask "InTransit" None) (demo_db "bob" "Shipped") 1
              _ _ _ (widget "bob" "Shipped")).
    + vm_compute. reflexivity.
    + eexists _, _. reflexivity.
    + names_widget.
  - apply (B "bob" "distributor" (ask "Shipped" None) (demo_db "bob" "InTransit") 1
             (widget "bob" "InTransit") "Shipped" 2 3).
    + names_widget.
    + asks.
    + reflexivity.
    + reflexivity.
    + lia.
  - apply (C _ (demo_db "bob" "ReadyForShipping") 1 "P1" (widget "bob" "ReadyForShipping")).
    + vm_compute. reflexivity.
    + repeat constructor; simpl; tauto.
Defined.

(** ** C2 *)

Lemma rejection_precedes_mutation_witness :
  rule_rejection
    (demo_transfer "carol" "distributor" (ask "InTransit" None) (demo_db "bob" "Shipped") 1).1.1 ∧
  (demo_transfer "carol" "distributor" (ask "InTransit" None) (demo_db "bob" "Shipped") 1).1.2 =
    demo_db "bob" "Shipped" ∧
  (demo_transfer "carol" "distributor" (ask "InTransit" None) (demo_db "bob" "Shipped") 1).2 = 1.
Proof.
  assert (demo_transfer "carol" "distributor" (ask "InTransit" None) (demo_db "bob" "Shipped") 1 =
          (WrongCustodian (widget "bob" "Shipped"), demo_db "bob" "Shipped", 1)) as H
    by (vm_compute; reflexivity).
  destruct (rejection_precedes_mutation id counting_add _ _ _ _ _ _ _ _ H) as (R & _ & _ & D & B).
  - eexists _, _. reflexivity.
  - rewrite H. simpl. auto.
Defined.

(** ** C3 *)

Lemma custodian_gate_witness :
  demo_transfer "carol" "distributor" (ask "InTransit" None) (demo_db "bob" "Shipped") 1 =
  (error "Action failed: You are not the current custodian ('bob')" 403,
   demo_db "bob" "Shipped", 1).
Proof.
  apply (custodian_gate id counting_add "carol" "distributor" (ask "InTransit" None)
           (demo_db "bob" "Shipped") 1 (widget "bob" "Shipped") "InTransit").
  - names_widget.
  - asks.
  - discriminate.
  - discriminate.
Defined.

(** ** C4 *)

(** C4 as stated fails: bob, distributor and custodian of a product that is
    [Shipped], asks for the handoff status [DeliveredToRetailer] and names no
    recipient; the answer is the invalid-sequence error of the guard before
    the handoff block, not the missing-target one. *)
Lemma handoff_without_target_stopped_earlier :
  handoff_status "DeliveredToRetailer" ∧
  transfer_to (ask "DeliveredToRetailer" None) = None ∧
  (demo_transfer "bob" "distributor" (ask "DeliveredToRetailer" None) (demo_db "bob" "Shipped") 1).1.1 =
    InvalidSequence "DeliveredToRetailer" "InTransit" ∧
  (demo_transfer "bob" "distributor" (ask "DeliveredToRetailer" None) (demo_db "bob" "Shipped") 1).1.1 ≠
    MissingTransferTarget "DeliveredToRetailer".
Proof.
  split; [by right|]. split; [reflexivity|]. split.
  - vm_compute. reflexivity.
  - vm_compute. discriminate.
Qed.

Lemma handoff_target_checked_witness :
  demo_transfer "alice" "manufacturer" (ask "ReadyForShipping" None) (demo_db "alice" "Created") 1 =
    (MissingTransferTarget "ReadyForShipping", demo_db "alice" "Created", 1) ∧
  demo_transfer "alice" "manufacturer" (ask "ReadyForShipping" (Some "zed")) (demo_db "alice" "Created") 1 =
    (RecipientNotFound "zed", demo_db "alice" "Created", 1) ∧
  demo_transfer "alice" "manufacturer" (ask "ReadyForShipping" (Some "dan")) (demo_db "alice" "Created") 1 =
    (RoleMismatch "distributor" (mkUser "dan" "retailer"), demo_db "alice" "Created", 1) ∧
  (¬ accepted (demo_transfer "bob" "distributor" (ask "DeliveredToRetailer" None)
                 (demo_db "bob" "InTransit") 1).1.1 ∧
   (demo_transfer "bob" "distributor" (ask "DeliveredToRetailer" None)
      (demo_db "bob" "InTransit") 1).1.2 = demo_db "bob" "InTransit" ∧
   (demo_transfer "bob" "distributor" (ask "DeliveredToRetailer" None)
      (demo_db "bob" "InTransit") 1).2 = 1).
Proof.
  destruct (@handoff_target_checked string id nat nat nat counting_add)
    as (A & B).
  assert (passes_guards "alice" "manufacturer" (widget "alice" "Created") "ReadyForShipping") as G.
  { split; [by left|]. split; [is_allowed|]. split.
    - exists 0, 1. repeat split; lia.
    - discriminate. }
  assert (names_product (ask "ReadyForShipping" None) (demo_db "alice" "Created")
            (widget "alice" "Created")) as N by names_widget.
  split; [|split; [|split]].
  - destruct (A "alice" "manufacturer" (ask "ReadyForShipping" None) (demo_db "alice" "Created") 1
                (widget "alice" "Created") "ReadyForShipping" "distributor") as (M & _ & _);
      [exact N|asks|by left|exact G|].
    apply M. reflexivity.
  - destruct (A "alice" "manufacturer" (ask "ReadyForShipping" (Some "zed"))
                (demo_db "alice" "Created") 1
                (widget "alice" "Created") "ReadyForShipping" "distributor") as (_ & M & _);
      [names_widget|asks|by left|exact G|].
    apply (M "zed"); [reflexivity|discriminate|reflexivity].
  - destruct (A "alice" "manufacturer" (ask "ReadyForShipping" (Some "dan"))
                (demo_db "alice" "Created") 1
                (widget "alice" "Created") "ReadyForShipping" "distributor") as (_ & _ & M);
      [names_widget|asks|by left|exact G|].
    apply (M "dan" (mkUser "dan" "retailer")); [reflexivity|discriminate|reflexivity|discriminate].
  - destruct (demo_transfer "bob" "distributor" (ask "DeliveredToRetailer" None)
                (demo_db "bob" "InTransit") 1) as [[resp db'] bc'] eqn:H.
    apply (B "bob" "distributor" (ask "DeliveredToRetailer" None) (demo_db "bob" "InTransit") 1
             "DeliveredToRetailer" "retailer").
    + asks.
    + by right.
    + intros (t & u & Ht & _). discriminate Ht.
    + exact H.
Defined.

(** ** C5 *)

(** C5 as stated fails.  bob, distributor and custodian of a product that is
    [InTransit], asks for [InTransit] again: the product is not in the
    required [Shipped], and the answer is the invalid-transition error.
    carol, a distributor who does not hold the product, asks for [InTransit]
    while it is [ReadyForShipping]: the answer is the wrong-custodian error.
    Neither is the invalid-sequence error. *)
Lemma out_of_sequence_stopped_earlier :
  required_predecessor "InTransit" "Shipped" ∧
  current_status (widget "bob" "InTransit") ≠ "Shipped" ∧
  (demo_transfer "bob" "distributor" (ask "InTransit" None) (demo_db "bob" "InTransit") 1).1.1 =
    InvalidTransition (widget "bob" "InTransit") "InTransit" ∧
  (demo_transfer "bob" "distributor" (ask "InTransit" None) (demo_db "bob" "InTransit") 1).1.1 ≠
    InvalidSequence "InTransit" "Shipped" ∧
  current_status (widget "bob" "ReadyForShipping") ≠ "Shipped" ∧
  (demo_transfer "carol" "distributor" (ask "InTransit" None) (demo_db "bob" "ReadyForShipping") 1).1.1 =
    WrongCustodian (widget "bob" "ReadyForShipping") ∧
  (demo_transfer "carol" "distributor" (ask "InTransit" None) (demo_db "bob" "ReadyForShipping") 1).1.1 ≠
    InvalidSequence "InTransit" "Shipped".
Proof.
  split; [by left|]. split; [discriminate|]. split; [vm_compute; reflexivity|].
  split; [vm_compute; discriminate|]. split; [discriminate|].
  split; [vm_compute; reflexivity|]. vm_compute; discriminate.
Qed.

Lemma distributor_sequence_enforced_witness :
  current_status (widget "bob" "Shipped") = "Shipped" ∧
  ∃ resp, demo_transfer "bob" "distributor" (ask "InTransit" None) (demo_db "bob" "ReadyForShipping") 1 =
            (resp, demo_db "bob" "ReadyForShipping", 1) ∧
          ¬ accepted resp ∧
          (custodian (widget "bob" "ReadyForShipping") ≠ "bob" →
           resp = WrongCustodian (widget "bob" "ReadyForShipping")) ∧
          (custodian (widget "bob" "ReadyForShipping") = "bob" →
           ∀ a b, status_index "InTransit" = Some a →
                  status_index (current_status (widget "bob" "ReadyForShipping")) = Some b →
                  (a ≤ b)%nat → resp = InvalidTransition (widget "bob" "ReadyForShipping") "InTransit") ∧
          (custodian (widget "bob" "ReadyForShipping") = "bob" →
           status_lt (current_status (widget "bob" "ReadyForShipping")) "InTransit" →
           resp = InvalidSequence "InTransit" "Shipped").
Proof.
  destruct (@distributor_sequence_enforced string id nat nat nat counting_add)
    as (A & B).
  split.
  - eapply (A "bob" (ask "InTransit" None) (demo_db "bob" "Shipped") 1 _ _ _
              (widget "bob" "Shipped") "InTransit" "Shipped").
    + vm_compute. reflexivity.
    + eexists _, _. reflexivity.
    + names_widget.
    + asks.
    + by left.
  - apply (B "bob" (ask "InTransit" None) (demo_db "bob" "ReadyForShipping") 1
             (widget "bob" "ReadyForShipping") "InTransit" "Shipped").
    + names_widget.
    + asks.
    + by left.
    + discriminate.
Defined.

(** ** C6 *)

Lemma ledger_failure_tolerated_witness :
  ∃ db',
    explicit_custody_transfer id ledger_down "alice" "manufacturer"
      (ask "ReadyForShipping" (Some "bob")) (demo_db "alice" "Created") 1 =
      (Json (UpdateBody (moved (widget "alice" "Created") "bob" "ReadyForShipping") None) 200,
       db', 1) ∧
    find_product "P1" db' = Some (moved (widget "alice" "Created") "bob" "ReadyForShipping") ∧
    current_status (moved (widget "alice" "Created") "bob" "ReadyForShipping") = "ReadyForShipping" ∧
    custodian (moved (widget "alice" "Created") "bob" "ReadyForShipping") = "bob" ∧
    history db' =
      (history (demo_db "alice" "Created") ++
       [mkHistory "P1" "ReadyForShipping" "alice" None None None])%list.
Proof.
  apply (ledger_failure_tolerated id ledger_down "alice" "manufacturer"
           (ask "ReadyForShipping" (Some "bob")) (demo_db "alice" "Created") 1
           "P1" "ReadyForShipping" (widget "alice" "Created") "bob" 1 "ledger unavailable").
  - reflexivity.
  - split; [names_widget|]. split; [asks|]. split.
    + split; [by left|]. split; [is_allowed|]. split.
      * exists 0, 1. repeat split; lia.
      * discriminate.
    + right. exists "distributor", "bob", (mkUser "bob" "distributor").
      split; [by left|]. split; [reflexivity|]. split; [discriminate|].
      split; [vm_compute; reflexivity|]. split; reflexivity.
  - reflexivity.
Defined.

(** ** C7 *)

Lemma custodian_changes_on_handoff_only_witness :
  (∃ p' block,
     (demo_transfer "alice" "manufacturer" (ask "ReadyForShipping" (Some "bob"))
        (demo_db "alice" "Created") 1).1.1 = Json (UpdateBody p' block) 200 ∧
     names_product (ask "ReadyForShipping" (Some "bob"))
       (demo_transfer "alice" "manufacturer" (ask "ReadyForShipping" (Some "bob"))
          (demo_db "alice" "Created") 1).1.2 p' ∧
     (handoff_status "ReadyForShipping" →
      ∃ t, transfer_to (ask "ReadyForShipping" (Some "bob")) = Some t ∧ custodian p' = t) ∧
     (¬ handoff_status "ReadyForShipping" →
      custodian p' = custodian (widget "alice" "Created") ∧
      custodian (widget "alice" "Created") = "alice")) ∧
  (∃ p' block,
     (demo_transfer "bob" "distributor" (ask "Shipped" (Some "dan"))
        (demo_db "bob" "ReadyForShipping") 1).1.1 = Json (UpdateBody p' block) 200 ∧
     names_product (ask "Shipped" (Some "dan"))
       (demo_transfer "bob" "distributor" (ask "Shipped" (Some "dan"))
          (demo_db "bob" "ReadyForShipping") 1).1.2 p' ∧
     (handoff_status "Shipped" →
      ∃ t, transfer_to (ask "Shipped" (Some "dan")) = Some t ∧ custodian p' = t) ∧
     (¬ handoff_status "Shipped" →
      custodian p' = custodian (widget "bob" "ReadyForShipping") ∧
      custodian (widget "bob" "ReadyForShipping") = "bob")) ∧
  (∃ actor role data s,
     ExplicitCustodyTransfer (Timestamp:=nat) "alice" "manufacturer"
       (ask "ReadyForShipping" (Some "bob")) = ExplicitCustodyTransfer actor role data ∧
     names_product data (demo_db "alice" "Created") (widget "alice" "Created") ∧
     requests_status data s ∧ handoff_status s ∧
     accepted (handle id counting_add
                 (ExplicitCustodyTransfer "alice" "manufacturer" (ask "ReadyForShipping" (Some "bob")))
                 (demo_db "alice" "Created") 1).1.1).
Proof.
  destruct (@custodian_changes_on_handoff_only string id nat nat nat counting_add) as (A & B).
  split; [|split].
  - eapply (A "alice" "manufacturer" (ask "ReadyForShipping" (Some "bob"))
              (demo_db "alice" "Created") 1 _ _ _ (widget "alice" "Created") "ReadyForShipping").
    + vm_compute. reflexivity.
    + eexists _, _. reflexivity.
    + names_widget.
    + asks.
  - eapply (A "bob" "distributor" (ask "Shipped" (Some "dan"))
              (demo_db "bob" "ReadyForShipping") 1 _ _ _ (widget "bob" "ReadyForShipping") "Shipped").
    + vm_compute. reflexivity.
    + eexists _, _. reflexivity.
    + names_widget.
    + asks.
  - apply (B (ExplicitCustodyTransfer "alice" "manufacturer" (ask "ReadyForShipping" (Some "bob")))
             (demo_db "alice" "Created") 1 "P1" (widget "alice" "Created")
             (widget "bob" "ReadyForShipping")).
    + apply (bool_decide_unpack _). vm_compute. exact I.
    + vm_compute. reflexivity.
    + vm_compute. reflexivity.
    + discriminate.
Defined.

(** ** C8 *)

Lemma event_location_witness :
  (∃ event,
     (create_product id recording_add "alice"
        (mkCreateData (Some "Widget") None (Some "12.5") (Some "77.1")) "P2" 7
        (demo_db "alice" "Created") []).2 = [event] ∧
     event !! "type" = Some "create_product" ∧
     event !! "location" = Some "12.5,77.1") ∧
  (∃ event,
     (explicit_custody_transfer id recording_add "bob" "distributor"
        (ask "Shipped" None) (demo_db "bob" "ReadyForShipping") []).2 = [event] ∧
     event !! "product_id" = Some "P1" ∧
     event !! "status" = Some "Shipped" ∧
     event !! "location" = Some "N/A") ∧
  location id (Some "12.5") (Some "77.1") = "12.5,77.1" ∧
  location id None (Some "77.1") = "N/A".
Proof.
  destruct (@event_location string id nat (list (gmap string string)) nat recording_add)
    as (A & B & C & D).
  split; [|split; [|split]].
  - apply (A "alice" (mkCreateData (Some "Widget") None (Some "12.5") (Some "77.1")) "P2" 7
             (demo_db "alice" "Created") []).
    reflexivity.
  - assert (accepted (explicit_custody_transfer id recording_add "bob" "distributor"
                        (ask "Shipped" None) (demo_db "bob" "ReadyForShipping") []).1.1) as Hacc
      by (eexists _, _; vm_compute; reflexivity).
    destruct (explicit_custody_transfer id recording_add "bob" "distributor"
                (ask "Shipped" None) (demo_db "bob" "ReadyForShipping") [])
      as [[resp db'] bc'] eqn:H.
    exact (B "bob" "distributor" (ask "Shipped" None) (demo_db "bob" "ReadyForShipping") []
             resp db' bc' H Hacc).
  - apply (C "12.5" "77.1").
  - apply (D (Some "77.1")).
Defined.

(** ** C9 *)

(** C9 as stated fails: carol, a distributor who does not hold the product,
    asks for [Recalled]; the request is rejected by the custodian guard and
    never gets to the role guard. *)
Lemma recalled_request_stopped_by_custodian_guard :
  names_product (ask "Recalled" None) (demo_db "bob" "Shipped") (widget "bob" "Shipped") ∧
  (demo_transfer "carol" "distributor" (ask "Recalled" None) (demo_db "bob" "Shipped") 1).1.1 =
    WrongCustodian (widget "bob" "Shipped") ∧
  (demo_transfer "carol" "distributor" (ask "Recalled" None) (demo_db "bob" "Shipped") 1).1.1 ≠
    RoleNotPermitted "distributor" "Recalled".
Proof.
  split; [names_widget|]. split.
  - vm_compute. reflexivity.
  - vm_compute. discriminate.
Qed.

Lemma recalled_unreachable_witness :
  demo_transfer "bob" "distributor" (ask "Recalled" None) (demo_db "bob" "Shipped") 1 =
    (RoleNotPermitted "distributor" "Recalled", demo_db "bob" "Shipped", 1) ∧
  (rejected (demo_transfer "carol" "distributor" (ask "Recalled" None) (demo_db "bob" "Shipped") 1).1.1 ∧
   (demo_transfer "carol" "distributor" (ask "Recalled" None) (demo_db "bob" "Shipped") 1).1.2 =
     demo_db "bob" "Shipped" ∧
   (demo_transfer "carol" "distributor" (ask "Recalled" None) (demo_db "bob" "Shipped") 1).2 = 1) ∧
  (∀ p, p ∈ products
          (run id counting_add
             [ExplicitCustodyTransfer "bob" "distributor" (ask "Recalled" None);
              ExplicitCustodyTransfer "bob" "distributor" (ask "InTransit" None)]
             (demo_db "bob" "Shipped") 1).1 →
        current_status p ≠ "Recalled").
Proof.
  destruct (@recalled_unreachable string id nat nat nat counting_add)
    as (_ & A & _ & B & C).
  split; [|split].
  - apply (A "bob" "distributor" (ask "Recalled" None) (demo_db "bob" "Shipped") 1
             (widget "bob" "Shipped")).
    + names_widget.
    + asks.
    + by left.
  - destruct (demo_transfer "carol" "distributor" (ask "Recalled" None) (demo_db "bob" "Shipped") 1)
      as [[resp db'] bc'] eqn:H.
    apply (B "carol" "distributor" (ask "Recalled" None) (demo_db "bob" "Shipped") 1).
    + reflexivity.
    + exact H.
  - apply (C _ (demo_db "bob" "Shipped") 1).
    intros p Hp. apply list_elem_of_singleton in Hp as ->. discriminate.
Defined.

(** ** C10 *)

Lemma super_admin_never_accepted_witness :
  demo_transfer "root" "super_admin" (ask "Shipped" None) (demo_db "bob" "ReadyForShipping") 1 =
    (RoleNotPermitted "super_admin" "Shipped", demo_db "bob" "ReadyForShipping", 1) ∧
  ("distributor" ≠ "super_admin" ∧
   ∃ p, names_product (ask "Shipped" None) (demo_db "bob" "ReadyForShipping") p ∧
        custodian p = "bob").
Proof.
  destruct (@super_admin_never_accepted string id nat nat nat counting_add)
    as (_ & A & _ & B).
  split.
  - apply (A "root" (ask "Shipped" None) (demo_db "bob" "ReadyForShipping") 1
             (widget "bob" "ReadyForShipping") "Shipped").
    + names_widget.
    + asks.
  - eapply (B "bob" "distributor" (ask "Shipped" None) (demo_db "bob" "ReadyForShipping") 1).
    + vm_compute. reflexivity.
    + eexists _, _. reflexivity.
Defined.

(** * The further properties at work *)

Lemma roles_split_the_statuses_witness :
  is_Some (status_index "Shipped") ∧ "distributor" = "distributor".
Proof.
  destruct roles_split_the_statuses as (A & B).
  split.
  - apply (A "distributor" "Shipped"). is_allowed.
  - apply (B "distributor" "distributor" "Shipped"); is_allowed.
Defined.

Lemma status_index_inverts_lookup_witness : "Shipped" = "Shipped".
Proof.
  destruct status_index_inverts_lookup as (_ & _ & A).
  apply (A "Shipped" "Shipped" 2); reflexivity.
Defined.



Lemma accepted_moves_witness :
  (custodian (widget "bob" "Shipped") = "bob" ∧
   allowed_move "distributor" (current_status (widget "bob" "Shipped")) "InTransit") ∧
  (passes_guards "dan" "retailer" (widget "dan" "DeliveredToRetailer") "Sold" ↔
   custodian (widget "dan" "DeliveredToRetailer") = "dan" ∧
   allowed_move "retailer" (current_status (widget "dan" "DeliveredToRetailer")) "Sold").
Proof.
  destruct (@accepted_moves string id nat nat nat counting_add) as (A & B).
  split.
  - eapply (A "bob" "distributor" (ask "InTransit" None) (demo_db "bob" "Shipped") 1).
    + vm_compute. reflexivity.
    + eexists _, _. reflexivity.
    + names_widget.
    + asks.
  - apply B.
Defined.

Lemma sold_and_recalled_are_final_witness :
  ¬ accepted (demo_transfer "dan" "retailer" (ask "Recalled" None) (demo_db "dan" "Sold") 1).1.1 ∧
  (demo_transfer "dan" "retailer" (ask "Recalled" None) (demo_db "dan" "Sold") 1).1.2 =
    demo_db "dan" "Sold" ∧
  (demo_transfer "dan" "retailer" (ask "Recalled" None) (demo_db "dan" "Sold") 1).2 = 1.
Proof.
  apply (sold_and_recalled_are_final id counting_add "dan" "retailer" (ask "Recalled" None)
           (demo_db "dan" "Sold") 1 (widget "dan" "Sold")).
  - names_widget.
  - by left.
Defined.

Lemma identity_kept_witness :
  ∃ p', find_product "P1"
          (run id counting_add
             [ExplicitCustodyTransfer "alice" "manufacturer" (ask "ReadyForShipping" (Some "bob"));
              ExplicitCustodyTransfer "bob" "distributor" (ask "Shipped" None)]
             (demo_db "alice" "Created") 1).1 = Some p' ∧
        product_id p' = "P1" ∧ name p' = "Widget" ∧ owner p' = "alice" ∧
        description p' = "a widget".
Proof.
  destruct (@identity_kept string id nat nat nat counting_add) as (A & _).
  apply (A _ (demo_db "alice" "Created") 1 "P1" (widget "alice" "Created")).
  - vm_compute. reflexivity.
  - repeat constructor; simpl; tauto.
Defined.

Lemma history_appended_witness :
  (∃ i s, pid (ask_at "Shipped" None "12.5" "77.1") = Some i ∧
          new_status (ask_at "Shipped" None "12.5" "77.1") = Some s ∧
          history (demo_transfer "bob" "distributor" (ask_at "Shipped" None "12.5" "77.1")
                     (demo_db "bob" "ReadyForShipping") 1).1.2 =
            (history (demo_db "bob" "ReadyForShipping") ++
             [mkHistory i s "bob" None (Some "12.5") (Some "77.1")])%list) ∧
  history (demo_db "bob" "ReadyForShipping") `prefix_of`
    history (run id counting_add
               [ExplicitCustodyTransfer "bob" "distributor" (ask "Shipped" None)]
               (demo_db "bob" "ReadyForShipping") 1).1.
Proof.
  destruct (@history_appended string id nat nat nat counting_add) as (A & B).
  split.
  - eapply (A "bob" "distributor" (ask_at "Shipped" None "12.5" "77.1")
              (demo_db "bob" "ReadyForShipping") 1).
    + vm_compute. reflexivity.
    + eexists _, _. reflexivity.
  - apply B. repeat constructor; simpl; tauto.
Defined.

Lemma event_agrees_with_store_witness :
  ∃ event p',
    (demo_transfer "alice" "manufacturer" (ask "ReadyForShipping" (Some "bob"))
       (demo_db "alice" "Created") 1).2 = ledger_after (counting_add 1 event) ∧
    names_product (ask "ReadyForShipping" (Some "bob"))
      (demo_transfer "alice" "manufacturer" (ask "ReadyForShipping" (Some "bob"))
         (demo_db "alice" "Created") 1).1.2 p' ∧
    (demo_transfer "alice" "manufacturer" (ask "ReadyForShipping" (Some "bob"))
       (demo_db "alice" "Created") 1).1.1 =
      Json (UpdateBody p' (block_info (counting_add 1 event))) 200 ∧
    event !! "product_id" = Some (product_id p') ∧
    event !! "status" = Some (current_status p') ∧
    event !! "new_custodian" = Some (custodian p') ∧
    event !! "actor" = Some "alice" ∧
    event !! "type" = Some (if bool_decide (handoff_status (current_status p'))
                            then "custody_transfer" else "status_update").
Proof.
  assert (accepted (demo_transfer "alice" "manufacturer" (ask "ReadyForShipping" (Some "bob"))
                      (demo_db "alice" "Created") 1).1.1) as Hacc
    by (eexists _, _; vm_compute; reflexivity).
  destruct (demo_transfer "alice" "manufacturer" (ask "ReadyForShipping" (Some "bob"))
              (demo_db "alice" "Created") 1) as [[resp db'] bc'] eqn:H.
  exact (event_agrees_with_store id counting_add "alice" "manufacturer"
           (ask "ReadyForShipping" (Some "bob")) (demo_db "alice" "Created") 1 resp db' bc' H Hacc).
Defined.

Lemma create_product_adds_row_witness :
  create_product id counting_add "alice" (mkCreateData None None None None) "P2" 7
    (demo_db "bob" "Shipped") 1 =
    (error "Product name is required" 400, demo_db "bob" "Shipped", 1) ∧
  ∃ product,
    products (create_product id counting_add "alice"
                (mkCreateData (Some "Gadget") None None None) "P2" 7
                (demo_db "bob" "Shipped") 1).1.2 =
      (products (demo_db "bob" "Shipped") ++ [product])%list ∧
    owner product = "alice" ∧ custodian product = "alice" ∧
    find_product "P2"
      (create_product id counting_add "alice" (mkCreateData (Some "Gadget") None None None)
         "P2" 7 (demo_db "bob" "Shipped") 1).1.2 = Some product.
Proof.
  split.
  - apply (create_product_adds_row id counting_add "alice" (mkCreateData None None None None)
             "P2" 7 (demo_db "bob" "Shipped") 1).
    reflexivity.
  - destruct (create_product_adds_row id counting_add "alice"
                (mkCreateData (Some "Gadget") None None None) "P2" 7
                (demo_db "bob" "Shipped") 1) as [_ A].
    destruct (A eq_refl) as (product & H1 & _ & H2 & H3 & _ & _ & _ & _ & H4).
    exists product. repeat split; try done. apply H4. vm_compute. reflexivity.
Defined.

Lemma created_then_handed_over_witness :
  accepted
    (explicit_custody_transfer id counting_add "alice" "manufacturer"
       (mkUpdateData (Some "P2") (Some "ReadyForShipping") (Some "bob") None None)
       (create_product id counting_add "alice" (mkCreateData (Some "Gadget") None None None)
          "P2" 7 (demo_db "bob" "Shipped") 1).1.2 2).1.1 ∧
  ∃ p, find_product "P2"
         (explicit_custody_transfer id counting_add "alice" "manufacturer"
            (mkUpdateData (Some "P2") (Some "ReadyForShipping") (Some "bob") None None)
            (create_product id counting_add "alice" (mkCreateData (Some "Gadget") None None None)
               "P2" 7 (demo_db "bob" "Shipped") 1).1.2 2).1.2 = Some p ∧
       custodian p = "bob" ∧ owner p = "alice" ∧ current_status p = "ReadyForShipping".
Proof.
  apply (created_then_handed_over id counting_add "alice"
           (mkCreateData (Some "Gadget") None None None) "P2" 7 (demo_db "bob" "Shipped") 1 2
           "bob" (mkUser "bob" "distributor") None None).
  - reflexivity.
  - discriminate.
  - vm_compute. reflexivity.
  - discriminate.
  - vm_compute. reflexivity.
  - reflexivity.
Defined.

Lemma ledger_failure_escapes_witness :
  (∃ db', create_product id ledger_down "alice" (mkCreateData (Some "Gadget") None None None)
            "P2" 7 (demo_db "bob" "Shipped") 1 = (Unhandled "ledger unavailable", db', 1) ∧
          length (products db') = S (length (products (demo_db "bob" "Shipped"))) ∧
          is_Some (find_product "P2" db')) ∧
  (∃ db', delete_product ledger_down "root" "P1" (demo_db "bob" "Shipped") 1 =
            (Unhandled "ledger unavailable", db', 1) ∧
          find_product "P1" db' = None).
Proof.
  destruct (@ledger_failure_escapes string id nat nat nat ledger_down) as (A & B).
  split.
  - apply (A "alice" (mkCreateData (Some "Gadget") None None None) "P2" 7
             (demo_db "bob" "Shipped") 1 1 "ledger unavailable").
    + reflexivity.
    + reflexivity.
  - apply (B "root" "P1" (demo_db "bob" "Shipped") 1 1 "ledger unavailable"
             (widget "bob" "Shipped")).
    + vm_compute. reflexivity.
    + apply (bool_decide_unpack _). vm_compute. exact I.
    + reflexivity.
Defined.

Lemma delete_product_removes_witness :
  delete_product counting_add "root" "P9" (demo_db "bob" "Shipped") 1 =
    (error "product not found" 404, demo_db "bob" "Shipped", 1) ∧
  find_product "P1" (delete_product counting_add "root" "P1" (demo_db "bob" "Shipped") 1).1.2 = None ∧
  demo_transfer "bob" "distributor" (ask "InTransit" None)
    (delete_product counting_add "root" "P1" (demo_db "bob" "Shipped") 1).1.2 2 =
    (ProductNotFound, (delete_product counting_add "root" "P1" (demo_db "bob" "Shipped") 1).1.2, 2).
Proof.
  destruct (delete_product_removes id counting_add "root" "P9" (demo_db "bob" "Shipped") 1)
    as [A _].
  destruct (delete_product_removes id counting_add "root" "P1" (demo_db "bob" "Shipped") 1)
    as [_ B].
  split; [apply A; vm_compute; reflexivity|].
  destruct (B (widget "bob" "Shipped")) as (H1 & _ & _ & _ & _ & H2).
  - vm_compute. reflexivity.
  - apply (bool_decide_unpack _). vm_compute. exact I.
  - split; [exact H1|].
    apply (H2 "bob" "distributor" (ask "InTransit" None) 2 "InTransit");
      [reflexivity|discriminate|asks].
Defined.

Lemma get_product_after_write_witness :
  get_product "P1"
    (demo_transfer "alice" "manufacturer" (ask "ReadyForShipping" (Some "bob"))
       (demo_db "alice" "Created") 1).1.2 =
    (ViewJson (ProductView (widget "bob" "ReadyForShipping")) 200 : @ViewResponse nat) ∧
  get_product "P2"
    (create_product id counting_add "alice" (mkCreateData (Some "Gadget") None None None)
       "P2" 7 (demo_db "bob" "Shipped") 1).1.2 =
    (ViewJson (ProductView (mkProduct "P2" "Gadget" "alice" "alice" "" "Created")) 200
       : @ViewResponse nat) ∧
  get_product "P1" (delete_product counting_add "root" "P1" (demo_db "bob" "Shipped") 1).1.2 =
    (ViewJson (ErrorView "not found") 404 : @ViewResponse nat).
Proof.
  destruct (@get_product_after_write string id nat nat nat counting_add nat) as (A & B & C).
  split; [|split].
  - apply (A "alice" "manufacturer" (ask "ReadyForShipping" (Some "bob"))
             (demo_db "alice" "Created") 1 (widget "bob" "ReadyForShipping") (Some 1) _ 2 "P1").
    + vm_compute. reflexivity.
    + reflexivity.
  - apply (B "alice" (mkCreateData (Some "Gadget") None None None) "P2" 7
             (demo_db "bob" "Shipped") 1 _ 1 _ 2).
    + vm_compute. reflexivity.
    + reflexivity.
  - apply (C "root" "P1" (demo_db "bob" "Shipped") 1 (widget "bob" "Shipped")).
    + reflexivity.
    + apply (bool_decide_unpack _). vm_compute. exact I.
Defined.

Lemma product_blockchain_raises_iff_witness :
  get_product_blockchain (λ bc : list (option (gmap string string)), bc)
    (λ b, from_option DictData OtherData b) (λ b, b) "P1"
    [Some {["product_id" := "P1"]}; None] = ViewRaises "AttributeError" ∧
  get_product_blockchain (λ bc : list (option (gmap string string)), bc)
    (λ b, from_option DictData OtherData b) (λ b, b) "P1"
    [Some {["product_id" := "P1"]}; Some {["product_id" := "P2"]}] =
    ViewJson (ChainView [Some {["product_id" := "P1"]}]) 200.
Proof.
  destruct (@product_blockchain_raises_iff string nat
              (list (option (gmap string string))) (option (gmap string string))
              (option (gmap string string)) (λ bc, bc)
              (λ b, from_option DictData OtherData b) (λ b, b) (λ b, from_option DictData OtherData b)
              None) as (A & _ & C).
  split.
  - apply A. split; [reflexivity|].
    exists None. split; [|reflexivity].
    apply list_elem_of_In. right. left. reflexivity.
  - rewrite C.
    + reflexivity.
    + intros b Hb. apply list_elem_of_In in Hb.
      destruct Hb as [<-|[<-|[]]]; discriminate.
Defined.

Lemma timeline_follows_transition_witness :
  ∃ event,
    event !! "status" = Some "ReadyForShipping" ∧
    event !! "new_custodian" = Some "bob" ∧
    ∃ v m,
      get_product_history_from_blockchain (λ bc : list (gmap string string), bc)
        DictData (λ b, b) DictData None "P1"
        (explicit_custody_transfer id book_add "alice" "manufacturer"
           (ask "ReadyForShipping" (Some "bob")) (demo_db "alice" "Created") []).1.2
        (explicit_custody_transfer id book_add "alice" "manufacturer"
           (ask "ReadyForShipping" (Some "bob")) (demo_db "alice" "Created") []).2 =
        ViewJson (HistoryView (widget "bob" "ReadyForShipping") [DictData event] v m) 200.
Proof.
  destruct (@timeline_follows_transition string id nat (list (gmap string string))
              (gmap string string) book_add (gmap string string) (λ bc, bc) DictData (λ b, b)
              DictData None "alice" "manufacturer" (ask "ReadyForShipping" (Some "bob"))
              (demo_db "alice" "Created") [] (widget "bob" "ReadyForShipping")
              (transfer_event id "P1" "ReadyForShipping" "alice" "bob" None None)
              (explicit_custody_transfer id book_add "alice" "manufacturer"
                 (ask "ReadyForShipping" (Some "bob")) (demo_db "alice" "Created") []).1.2
              (explicit_custody_transfer id book_add "alice" "manufacturer"
                 (ask "ReadyForShipping" (Some "bob")) (demo_db "alice" "Created") []).2
              "P1")
    as (event & _ & Hs & Hc & Ht & _).
  - intros bc d bc' b [= <- <-]. split; reflexivity.
  - intros b. reflexivity.
  - reflexivity.
  - reflexivity.
  - exists event. split; [exact Hs|]. split; [exact Hc|].
    exact (Ht (widget "alice" "Created") [] false "Validation method not found" eq_refl).
Defined.

Lemma ledger_outlives_product_witness :
  get_product_history_from_blockchain (λ bc : list (gmap string string), bc)
    DictData (λ b, b) DictData None "P1"
    (delete_product book_add "root" "P1" (demo_db "bob" "Shipped")
       [{["product_id" := "P1"]}]).1.2
    (delete_product book_add "root" "P1" (demo_db "bob" "Shipped")
       [{["product_id" := "P1"]}]).2 =
    ViewJson (ErrorView "Product not found") 404 ∧
  get_product_blockchain (λ bc : list (gmap string string), bc) DictData (λ b, b) "P1"
    (delete_product book_add "root" "P1" (demo_db "bob" "Shipped")
       [{["product_id" := "P1"]}]).2 =
    ViewJson (ChainView [{["product_id" := "P1"]}; delete_event "P1" "root"]) 200.
Proof.
  destruct (@ledger_outlives_product string nat (list (gmap string string))
              (gmap string string) book_add (gmap string string) (λ bc, bc) DictData (λ b, b)
              DictData None "root" "P1" (demo_db "bob" "Shipped") [{["product_id" := "P1"]}]
              (widget "bob" "Shipped") (delete_event "P1" "root")
              (delete_product book_add "root" "P1" (demo_db "bob" "Shipped")
                 [{["product_id" := "P1"]}]).1.2
              (delete_product book_add "root" "P1" (demo_db "bob" "Shipped")
                 [{["product_id" := "P1"]}]).2)
    as (A & _ & C).
  - intros bc d bc' b [= <- <-]. split; reflexivity.
  - reflexivity.
  - apply (bool_decide_unpack _). vm_compute. exact I.
  - reflexivity.
  - split; [exact A|].
    exact (C [{["product_id" := "P1"]}] eq_refl).
Defined.

Lemma list_products_shows_own_witness :
  list_products small_int (λ _ _ _, true) (λ _, false) as_stored one_page "bob" "distributor"
    (mkListArgs None None None None None None None) (demo_db "bob" "Shipped") =
    (ViewJson (ListView 1 10 1 [widget "bob" "Shipped"]) 200 : @ViewResponse nat) ∧
  custodian (widget "bob" "Shipped") = "bob".
Proof.
  assert (list_products small_int (λ _ _ _, true) (λ _, false) as_stored one_page
            "bob" "distributor" (mkListArgs None None None None None None None)
            (demo_db "bob" "Shipped") =
          (ViewJson (ListView 1 10 1 [widget "bob" "Shipped"]) 200 : @ViewResponse nat)) as H
    by reflexivity.
  split; [exact H|].
  destruct (@list_products_shows_own string nat nat small_int (λ _ _ _, true) (λ _, false)
              as_stored one_page "bob" "distributor"
              (mkListArgs None None None None None None None) (demo_db "bob" "Shipped")
              1%Z 10%Z 1 [widget "bob" "Shipped"]) as (_ & _ & Hp).
  - intros f d l x Hx. exact Hx.
  - intros pg pp l x Hx. exact Hx.
  - exact H.
  - destruct (Hp (widget "bob" "Shipped")) as (_ & Hown & _).
    + apply list_elem_of_In. left. reflexivity.
    + destruct Hown as [Hc|Ho]; [discriminate|exact Hc|discriminate Ho].
Defined.


Lemma search_ignores_the_caller_witness :
  search_products match_all (mkSearchArgs None None None) (demo_db "bob" "Shipped") =
    (ViewJson (SearchView [widget "bob" "Shipped"]) 200 : @ViewResponse nat) ∧
  ∀ page per_page total shown,
    list_products small_int (λ _ _ _, true) (λ _, false) as_stored one_page "dan" "retailer"
      (mkListArgs None None None None None None None) (demo_db "bob" "Shipped") =
      (ViewJson (ListView page per_page total shown) 200 : @ViewResponse nat) →
    widget "bob" "Shipped" ∉ shown.
Proof.
  destruct (@search_ignores_the_caller string nat nat small_int (λ _ _ _, true) (λ _, false)
              as_stored one_page match_all (mkSearchArgs None None None)
              (demo_db "bob" "Shipped")) as (ps & Hs & Hin & Hout).
  injection Hs as <-.
  split; [reflexivity|].
  intros page per_page total shown Hl.
  apply (Hout (widget "bob" "Shipped") "dan" "retailer"
           (mkListArgs None None None None None None None) page per_page total shown).
  - intros f d l x Hx. exact Hx.
  - intros pg pp l x Hx. exact Hx.
  - apply list_elem_of_In. left. reflexivity.
  - discriminate.
  - discriminate.
  - discriminate.
  - exact Hl.
Defined.

Lemma qr_code_is_the_verify_url_witness :
  get_product_qrcode (create_app (Some "https://shop.example/") None)
    (mkHttpRequest None "http" None "localhost:5000") "P1" (demo_db "bob" "Shipped") =
    (ViewJson (QrCodeView "https://shop.example/verify/P1?api_base_url=https://shop.example")
       200 : @ViewResponse nat) ∧
  get_product_qrcode (create_app (Some "https://shop.example/") None)
    (mkHttpRequest None "http" None "localhost:5000") "P9" (demo_db "bob" "Shipped") =
    (ViewJson (ErrorView "product not found") 404 : @ViewResponse nat).
Proof.
  split.
  - apply (@qr_code_is_the_verify_url string nat nat
             (create_app (Some "https://shop.example/") None)
             (mkHttpRequest None "http" None "localhost:5000") "P1" (demo_db "bob" "Shipped")).
    exists (widget "bob" "Shipped"). reflexivity.
  - apply (@qr_code_is_the_verify_url string nat nat
             (create_app (Some "https://shop.example/") None)
             (mkHttpRequest None "http" None "localhost:5000") "P9" (demo_db "bob" "Shipped")).
    reflexivity.
Defined.

Lemma trailing_slashes_dropped_witness :
  FRONTEND_PUBLIC_BASE_URL (create_app (Some "https://shop.example//") None) =
    Some "https://shop.example" ∧
  (∀ x, "https://shop.example" ≠ x +:+ "/") ∧
  create_product_urls (create_app (Some ("https://shop.example" +:+ "/")) None)
    (mkHttpRequest None "http" None "localhost:5000") "P1" =
  create_product_urls (create_app (Some "https://shop.example") None)
    (mkHttpRequest None "http" None "localhost:5000") "P1".
Proof.
  destruct trailing_slashes_dropped as (A & _ & C).
  split; [reflexivity|]. split.
  - intros x. apply (C (Some "https://shop.example//") None). reflexivity.
  - apply A.
Defined.
